(** * ai24tv: the news ingest helper [news_fetcher.py]

    A shallow embedding of the fetch-and-normalise pipeline of
    [src/news_fetcher.py]: the keyed adapter [fetch_news_newsapi], the
    feed-fallback adapter [_fallback_to_rss] and the keyless adapter
    [fetch_news_gnews], followed by the properties the specification states
    about them.

    Python values are a small tagged union; dicts are association lists in
    insertion order.  Everything the module does not compute itself (the
    process environment, the HTTP client, the feed parser, the aggregation
    library, the wall clock, [time.sleep]) is an oracle of a [world]; the
    calls made are recorded in a trace, most recent first. *)

From Stdlib Require Import ZArith QArith List String Ascii Bool Arith Lia Sorted.
Import ListNotations.
Local Close Scope Q_scope.
Local Open Scope list_scope.
Local Open Scope string_scope.

(* ------------------------------------------------------------------ *)
(** ** Python values *)

(** A Python [float]: only its sign class matters to the code ([if sleep_sec:]). *)
Inductive pyfloat : Type :=
| FNan
| FInf (negative : bool)
| FFinite (q : Q).

#[warnings="-register-all"]
Inductive pyval : Type :=
| PNone
| PBool (b : bool)
| PInt (z : Z)
| PFloat (f : pyfloat)
| PStr (s : string)
| PList (l : list pyval)
| PDict (d : list (string * pyval)).

Definition float_truthy (f : pyfloat) : bool :=
  match f with
  | FNan => true
  | FInf _ => true
  | FFinite q => negb (Qeq_bool q 0%Q)
  end.

(** Python truth value testing, as used by [or], [not] and [if]. *)
Definition truthy (v : pyval) : bool :=
  match v with
  | PNone => false
  | PBool b => b
  | PInt z => negb (z =? 0)%Z
  | PFloat f => float_truthy f
  | PStr s => negb (s =? "")
  | PList l => match l with [] => false | _ :: _ => true end
  | PDict d => match d with [] => false | _ :: _ => true end
  end.

(** Truth value of an [Optional[str]]. *)
Definition str_truthy (o : option string) : bool :=
  match o with
  | None => false
  | Some s => negb (s =? "")
  end.

Fixpoint dict_get (d : list (string * pyval)) (k : string) : option pyval :=
  match d with
  | [] => None
  | (k', v) :: d' => if k' =? k then Some v else dict_get d' k
  end.

(** [d.get(k, default)] on a dict *)
Definition dict_get_or (d : list (string * pyval)) (k : string)
    (default : pyval) : pyval :=
  match dict_get d k with
  | Some v => v
  | None => default
  end.

Definition dict_keys (d : list (string * pyval)) : list string := map fst d.

(** The key list of a value, when it is a dict. *)
Definition keys_of (v : pyval) : option (list string) :=
  match v with
  | PDict d => Some (dict_keys d)
  | _ => None
  end.

(** The value under a key of a dict value; [None] when the value is not a
    dict or has no such key. *)
Definition field (v : pyval) (k : string) : option pyval :=
  match v with
  | PDict d => dict_get d k
  | _ => None
  end.

(** [l[:n]] *)
Definition slice_upto {A : Type} (n : Z) (l : list A) : list A :=
  if (0 <=? n)%Z then firstn (Z.to_nat n) l
  else firstn (List.length l - Z.to_nat (- n)) l.

(** A str is a sequence of UTF-8 bytes; iterating it yields its characters,
    each a str: a new character starts at every byte that is not a
    continuation byte (10xxxxxx). *)
Definition is_continuation (c : ascii) : bool :=
  let n := nat_of_ascii c in (128 <=? n)%nat && (n <? 192)%nat.

Fixpoint str_chars_aux (cur : string) (s : string) : list string :=
  match s with
  | EmptyString => [cur]
  | String c s' =>
      if is_continuation c then str_chars_aux (cur ++ String c EmptyString) s'
      else cur :: str_chars_aux (String c EmptyString) s'
  end.

Definition str_chars (s : string) : list string :=
  match s with
  | EmptyString => []
  | String c s' => str_chars_aux (String c EmptyString) s'
  end.

(* ------------------------------------------------------------------ *)
(** ** Exceptions and results *)

Inductive exn : Type :=
| ValueError (msg : string)
| KeyError (key : string)
| TypeError (msg : string)
| AttributeError (attr : string)
| LibraryError (cls msg : string)   (* any other subclass of Exception *)
| KeyboardInterrupt
| SystemExit.

(** What [except Exception] catches. *)
Definition is_Exception (e : exn) : bool :=
  match e with
  | KeyboardInterrupt | SystemExit => false
  | _ => true
  end.

Inductive result (A : Type) : Type :=
| Ok (a : A)
| Raise (e : exn).
Arguments Ok {A} a.
Arguments Raise {A} e.

(* ------------------------------------------------------------------ *)
(** ** The outside world *)

(** The configuration a [GNews] object holds:
    [GNews(language=..., country=..., period=..., max_results=...)]. *)
Record GNews : Type := mkGNews {
  gn_language : string;
  gn_country : string;
  gn_period : string;
  gn_max_results : Z
}.

(** A [requests.Response], by the outcome of the two methods called on it. *)
Record Response : Type := mkResponse {
  raise_for_status : result unit;
  json : result pyval
}.

(** A feed entry is a [FeedParserDict]: a dict whose keys are also attributes. *)
Definition entry : Type := list (string * pyval).

Inductive event : Type :=
| EvGetenv (name : string)
| EvHttpGet (url : string) (params : list (string * pyval)) (timeout : Z)
| EvFeedParse (url : string)
| EvGetNews (gn : GNews) (query : string)
| EvLogWarning (fmt : string) (exc : exn)
| EvSleep (secs : pyfloat).

Record world : Type := mkWorld {
  os_getenv : string -> option string;
  requests_get : string -> list (string * pyval) -> Z -> result Response;
  feedparser_parse : string -> result (list entry);
  (** the library's constructor on that configuration: it returns, or
      rejects the configuration by raising *)
  gnews_init : GNews -> result unit;
  gnews_get_news : GNews -> string -> result pyval;
  (** the string [datetime.now(timezone.utc).isoformat()] returns at its
      n-th evaluation *)
  utcnow_isoformat : nat -> string;
  time_sleep : pyfloat -> result unit
}.

Record state : Type := mkState {
  clock_reads : nat;
  trace : list event
}.

Definition emit (ev : event) (s : state) : state :=
  mkState (clock_reads s) (ev :: trace s).

Definition tick (s : state) : state :=
  mkState (S (clock_reads s)) (trace s).

(* ------------------------------------------------------------------ *)
(** ** The monad of effects: reader of the world, state, exceptions *)

Definition M (A : Type) : Type := world -> state -> result A * state.

Definition ret {A : Type} (a : A) : M A := fun _ s => (Ok a, s).

Definition bind {A B : Type} (m : M A) (k : A -> M B) : M B :=
  fun w s =>
    match m w s with
    | (Ok a, s') => k a w s'
    | (Raise e, s') => (Raise e, s')
    end.

Notation "x <- m ;; k" := (bind m (fun x => k))
  (at level 61, m at next level, right associativity).
Notation "m ;;; k" := (bind m (fun _ => k))
  (at level 61, right associativity).

Definition raise {A : Type} (e : exn) : M A := fun _ s => (Raise e, s).

Definition lift {A : Type} (r : result A) : M A := fun _ s => (r, s).

(** [try: m  except Exception as exc: h exc] *)
Definition try_except_Exception {A : Type} (m : M A) (h : exn -> M A) : M A :=
  fun w s =>
    match m w s with
    | (Ok a, s') => (Ok a, s')
    | (Raise e, s') => if is_Exception e then h e w s' else (Raise e, s')
    end.

Fixpoint mapM {A B : Type} (f : A -> M B) (l : list A) : M (list B) :=
  match l with
  | [] => ret []
  | a :: l' => b <- f a ;; bs <- mapM f l' ;; ret (b :: bs)
  end.

(** *** Primitive effects *)

Definition getenv (name : string) : M (option string) :=
  fun w s => (Ok (os_getenv w name), emit (EvGetenv name) s).

Definition http_get (url : string) (params : list (string * pyval))
    (timeout : Z) : M Response :=
  fun w s => (requests_get w url params timeout,
              emit (EvHttpGet url params timeout) s).

Definition feed_entries (url : string) : M (list entry) :=
  fun w s => (feedparser_parse w url, emit (EvFeedParse url) s).

(** [GNews(language=language, country=country, period=period,
    max_results=max_results)]: no request is made, so nothing goes on the
    trace *)
Definition new_GNews (language country period : string) (max_results : Z)
    : M GNews :=
  fun w s =>
    let gn := mkGNews language country period max_results in
    match gnews_init w gn with
    | Ok _ => (Ok gn, s)
    | Raise e => (Raise e, s)
    end.

Definition get_news (gn : GNews) (query : string) : M pyval :=
  fun w s => (gnews_get_news w gn query, emit (EvGetNews gn query) s).

Definition logging_warning (fmt : string) (exc : exn) : M unit :=
  fun _ s => (Ok tt, emit (EvLogWarning fmt exc) s).

Definition sleep (secs : pyfloat) : M unit :=
  fun w s => (time_sleep w secs, emit (EvSleep secs) s).

(** [datetime.now(timezone.utc).isoformat()] *)
Definition utcnow_iso : M pyval :=
  fun w s => (Ok (PStr (utcnow_isoformat w (clock_reads s))), tick s).

(** *** Operations on values that can raise *)

(** [a.get(k, default)] *)
Definition py_get (a : pyval) (k : string) (default : pyval) : M pyval :=
  match a with
  | PDict d => ret (dict_get_or d k default)
  | _ => raise (AttributeError "get")
  end.

(** [a[k]] for a str key *)
Definition py_getitem (a : pyval) (k : string) : M pyval :=
  match a with
  | PDict d =>
      match dict_get d k with
      | Some v => ret v
      | None => raise (KeyError k)
      end
  | PList _ => raise (TypeError "list indices must be integers or slices, not str")
  | PStr _ => raise (TypeError "string indices must be integers")
  | _ => raise (TypeError "object is not subscriptable")
  end.

(** [x or y] on two values *)
Definition py_or (x y : pyval) : pyval := if truthy x then x else y.

(** [x or m], with [m] evaluated only when [x] is falsy *)
Definition or_else (x : pyval) (m : M pyval) : M pyval :=
  if truthy x then ret x else m.

(** the elements a [for] loop or comprehension visits *)
Definition py_iter (v : pyval) : M (list pyval) :=
  match v with
  | PList l => ret l
  | PDict d => ret (map PStr (dict_keys d))
  | PStr s => ret (map PStr (str_chars s))
  | _ => raise (TypeError "object is not iterable")
  end.

(** [e.k] on a feed entry *)
Definition entry_getattr (e : entry) (k : string) : M pyval :=
  match dict_get e k with
  | Some v => ret v
  | None => raise (AttributeError k)
  end.

(** [e.get(k, default)] and [getattr(e, k, default)] on a feed entry *)
Definition entry_get (e : entry) (k : string) (default : pyval) : pyval :=
  dict_get_or e k default.

(* ------------------------------------------------------------------ *)
(** ** [urllib.parse.urlencode] of a dict of str *)

Module Urllib.

(** the bytes [quote] never escapes: letters, digits and [_.-~] *)
Definition always_safe (c : ascii) : bool :=
  let n := nat_of_ascii c in
  ((65 <=? n) && (n <=? 90) || (97 <=? n) && (n <=? 122)
   || (48 <=? n) && (n <=? 57)
   || (n =? 95) || (n =? 46) || (n =? 45) || (n =? 126))%nat.

Definition hex_digit (n : nat) : ascii :=
  nth n ["0"; "1"; "2"; "3"; "4"; "5"; "6"; "7"; "8"; "9";
         "A"; "B"; "C"; "D"; "E"; "F"]%char "0"%char.

Fixpoint quote_plus (s : string) : string :=
  match s with
  | EmptyString => EmptyString
  | String c s' =>
      if always_safe c then String c (quote_plus s')
      else if (c =? " ")%char then String "+" (quote_plus s')
      else
        let n := nat_of_ascii c in
        String "%" (String (hex_digit (n / 16))
                      (String (hex_digit (n mod 16)) (quote_plus s')))
  end.

Definition urlencode (query : list (string * string)) : string :=
  String.concat "&"
    (map (fun kv => quote_plus (fst kv) ++ "=" ++ quote_plus (snd kv)) query).

End Urllib.

(* ------------------------------------------------------------------ *)
(** ** Option A: [fetch_news_newsapi] *)

Definition newsapi_url : string := "https://newsapi.org/v2/everything".

Definition missing_key_message : string :=
  "Set NEWSAPI_KEY env var or pass --newsapi-key".

Definition newsapi_params (query language : string) (page_size : Z)
    (api_key : string) : list (string * pyval) :=
  [ ("q", PStr query);
    ("language", PStr language);
    ("sortBy", PStr "publishedAt");
    ("pageSize", PInt page_size);
    ("apiKey", PStr api_key) ].

(** the dict built for one article [a] of the response (lines 47-55) *)
Definition newsapi_record (a : pyval) : M pyval :=
  src <- py_getitem a "source" ;;
  name <- py_getitem src "name" ;;
  title <- py_getitem a "title" ;;
  description <- py_getitem a "description" ;;
  url <- py_getitem a "url" ;;
  image <- py_getitem a "urlToImage" ;;
  published_at <- py_getitem a "publishedAt" ;;
  fetched_at <- utcnow_iso ;;
  ret (PDict [ ("source", name);
               ("title", title);
               ("description", description);
               ("url", url);
               ("image", image);
               ("published_at", published_at);
               ("fetched_at", fetched_at) ]).

(** lines 33-57: the request and the mapping, once a key is in hand *)
Definition newsapi_request (key query language : string) (page_size : Z)
    : M (list pyval) :=
  resp <- http_get newsapi_url
            (newsapi_params query language page_size key) 10 ;;
  lift (raise_for_status resp) ;;;
  body <- lift (json resp) ;;
  articles <- py_get body "articles" (PList []) ;;
  items <- py_iter articles ;;
  mapM newsapi_record items.

Definition fetch_news_newsapi (api_key : option string)
    (query language : string) (page_size : Z) : M (list pyval) :=
  (* api_key = api_key or os.getenv("NEWSAPI_KEY") *)
  api_key <- (if str_truthy api_key then ret api_key
              else getenv "NEWSAPI_KEY") ;;
  (* if not api_key: raise ValueError(...) *)
  match api_key with
  | Some key =>
      if negb (key =? "") then newsapi_request key query language page_size
      else raise (ValueError missing_key_message)
  | None => raise (ValueError missing_key_message)
  end.

(* ------------------------------------------------------------------ *)
(** ** Option B: [_fallback_to_rss] and [fetch_news_gnews] *)

Definition rss_url (query language country : string) : string :=
  "https://news.google.com/rss/search?"
  ++ Urllib.urlencode
       [ ("q", query);
         ("hl", language ++ "-" ++ country);
         ("gl", country);
         ("ceid", country ++ ":" ++ language) ].

(** the dict built for one feed entry [e] (lines 83-91); the two
    [getattr(e, k, default)] cannot raise and are written in place *)
Definition rss_record (e : entry) : M pyval :=
  source <- py_get (entry_get e "source" (PDict [])) "title" (PStr "") ;;
  title <- entry_getattr e "title" ;;
  url <- entry_getattr e "link" ;;
  fetched_at <- utcnow_iso ;;
  ret (PDict [ ("source", source);
               ("title", title);
               ("description", entry_get e "summary" (PStr ""));
               ("url", url);
               ("image", PNone);
               ("published_at", entry_get e "published" PNone);
               ("fetched_at", fetched_at) ]).

Definition _fallback_to_rss (query language country : string)
    (max_results : Z) : M (list pyval) :=
  entries <- feed_entries (rss_url query language country) ;;
  mapM rss_record (slice_upto max_results entries).

(** the dict appended for one raw record [a] (lines 131-141) *)
Definition normalise_record (a : pyval) : M pyval :=
  s <- py_get a "source" PNone ;;
  source <- or_else s (py_get a "publisher" PNone) ;;
  title <- py_getitem a "title" ;;
  description <- py_get a "description" (PStr "") ;;
  url <- py_getitem a "url" ;;
  image <- py_get a "image" PNone ;;
  p <- py_get a "published_at" PNone ;;
  published_at <-
    or_else p (p' <- py_get a "published date" PNone ;;
               or_else p' (py_get a "published" PNone)) ;;
  f <- py_get a "fetched_at" PNone ;;
  fetched_at <- or_else f utcnow_iso ;;
  ret (PDict [ ("source", source);
               ("title", title);
               ("description", description);
               ("url", url);
               ("image", image);
               ("published_at", published_at);
               ("fetched_at", fetched_at) ]).

(** the normalisation loop [for a in raw: normalised.append(...)] *)
Definition normalise (raw : pyval) : M (list pyval) :=
  items <- py_iter raw ;;
  mapM normalise_record items.

Definition gnews_warning : string :=
  "gnews threw %s – switching to RSS fallback".

(** [if sleep_sec: time.sleep(sleep_sec)] *)
Definition post_fetch_sleep (sleep_sec : pyfloat) : M unit :=
  if float_truthy sleep_sec then sleep sleep_sec else ret tt.

(** lines 116-147: what follows once the client [gn] is built *)
Definition gnews_pipeline (gn : GNews) (query language country : string)
    (max_results : Z) (force_fallback : bool) (sleep_sec : pyfloat)
    : M (list pyval) :=
  raw <- (if negb force_fallback then
            try_except_Exception
              (r <- get_news gn query ;;
               ret (if truthy r then r else PList []))
              (fun exc => logging_warning gnews_warning exc ;;;
                          ret (PList []))
          else ret (PList [])) ;;
  raw <- (if force_fallback || negb (truthy raw) then
            l <- _fallback_to_rss query language country max_results ;;
            ret (PList l)
          else ret raw) ;;
  normalised <- normalise raw ;;
  post_fetch_sleep sleep_sec ;;;
  ret normalised.

Definition fetch_news_gnews (query language country period : string)
    (max_results : Z) (force_fallback : bool) (sleep_sec : pyfloat)
    : M (list pyval) :=
  (* gn = GNews(...), before the force_fallback test and outside the try *)
  gn <- new_GNews language country period max_results ;;
  gnews_pipeline gn query language country max_results force_fallback
    sleep_sec.

(** Steps 2 to 4 of the keyless adapter when the feed fallback is taken: the
    feed-fallback adapter's output, normalised, then the optional pause. *)
Definition normalised_fallback (query language country : string)
    (max_results : Z) (sleep_sec : pyfloat) : M (list pyval) :=
  l <- _fallback_to_rss query language country max_results ;;
  normalised <- normalise (PList l) ;;
  post_fetch_sleep sleep_sec ;;;
  ret normalised.


Definition with_getenv (g : string -> option string) (w : world) : world :=
  mkWorld g (requests_get w) (feedparser_parse w) (gnews_init w)
          (gnews_get_news w) (utcnow_isoformat w) (time_sleep w).

(* ------------------------------------------------------------------ *)
(** ** Concrete worlds used by the examples below *)

Definition initial : state := mkState 0 [].

(** A clock that advances by one second per reading for nine readings. *)
Definition demo_clock (n : nat) : string :=
  "2025-01-01T00:00:0" ++ String (ascii_of_nat (48 + Nat.min n 9)) "+00:00".

(** The library's constructor as the demonstration worlds have it: it
    rejects a [max_results] that is not positive. *)
Definition demo_gnews_init (gn : GNews) : result unit :=
  if (gn_max_results gn <=? 0)%Z
  then Raise (LibraryError "InvalidConfigError" "max_results must be positive")
  else Ok tt.

Definition offline : result Response :=
  Raise (LibraryError "ConnectionError" "offline").

Definition quiet_world : world :=
  mkWorld (fun _ => None)
          (fun _ _ _ => offline)
          (fun _ => Ok [])
          demo_gnews_init
          (fun _ _ => Ok (PList []))
          demo_clock
          (fun _ => Ok tt).

(** Two feed entries: one with a source, one without. *)
Definition demo_feed : list entry :=
  [ [ ("title", PStr "Markets rally");
      ("link", PStr "https://example.org/1");
      ("summary", PStr "Stocks up");
      ("published", PStr "Wed, 01 Jan 2025 00:00:00 GMT");
      ("source", PDict [("href", PStr "https://example.org");
                        ("title", PStr "Example Wire")]) ];
    [ ("title", PStr "Storm warning");
      ("link", PStr "https://example.org/2") ] ].

(** The library raises; the feed answers with [demo_feed]. *)
Definition library_down : world :=
  mkWorld (fun _ => None)
          (fun _ _ _ => offline)
          (fun _ => Ok demo_feed)
          demo_gnews_init
          (fun _ _ => Raise (LibraryError "HTTPError" "429 Too Many Requests"))
          demo_clock
          (fun _ => Ok tt).

(** The library answers with records in its own shape. *)
Definition library_records : pyval :=
  PList
    [ PDict [ ("title", PStr "Launch day");
              ("description", PStr "Rocket lifts off");
              ("published date", PStr "Tue, 31 Dec 2024 08:00:00 GMT");
              ("url", PStr "https://example.com/a");
              ("publisher", PDict [("href", PStr "https://example.com");
                                   ("title", PStr "Example Times")]) ];
      PDict [ ("title", PStr "Rain ahead");
              ("url", PStr "https://example.com/b");
              ("publisher", PStr "Weather Desk") ] ].

Definition library_up : world :=
  mkWorld (fun _ => None)
          (fun _ _ _ => offline)
          (fun _ => Ok demo_feed)
          demo_gnews_init
          (fun _ _ => Ok library_records)
          demo_clock
          (fun _ => Ok tt).

(* ------------------------------------------------------------------ *)
(** ** Generic facts about the monad *)

Section MapM.
Context {A B : Type}.
Variable f : A -> M B.

Lemma mapM_cons_Ok (a : A) (l : list A) (w : world) (s s' : state)
    (rs : list B) :
  mapM f (a :: l) w s = (Ok rs, s') ->
  exists b bs s1,
    f a w s = (Ok b, s1) /\ mapM f l w s1 = (Ok bs, s') /\ rs = b :: bs.
Proof.
  cbn [mapM]. unfold bind, ret.
  destruct (f a w s) as [[b | e] s1]; [| discriminate].
  destruct (mapM f l w s1) as [[bs | e] s2] eqn:Hl; [| discriminate].
  intros H. inversion H; subst. exists b, bs, s1. auto.
Qed.

(** A successful loop pairs every element with its image, in order. *)
Lemma mapM_Ok_Forall2 (P : A -> B -> Prop) :
  (forall a w s b s', f a w s = (Ok b, s') -> P a b) ->
  forall l w s rs s', mapM f l w s = (Ok rs, s') -> Forall2 P l rs.
Proof.
  intros HP. induction l as [| a l IH]; intros w s rs s' H.
  - cbn in H. unfold ret in H. inversion H. constructor.
  - apply mapM_cons_Ok in H. destruct H as (b & bs & s1 & Ha & Hl & ->).
    constructor; [eapply HP; exact Ha | eapply IH; exact Hl].
Qed.

Lemma mapM_Ok_Forall (P : B -> Prop) :
  (forall a w s b s', f a w s = (Ok b, s') -> P b) ->
  forall l w s rs s', mapM f l w s = (Ok rs, s') -> Forall P rs.
Proof.
  intros HP l w s rs s' H.
  apply (mapM_Ok_Forall2 (fun _ b => P b)) in H; [| exact HP].
  induction H; constructor; auto.
Qed.

(** One element on which the body always raises makes the loop raise. *)
Lemma mapM_raises (a : A) :
  (forall w s, exists e s', f a w s = (Raise e, s')) ->
  forall l w s, In a l -> exists e s', mapM f l w s = (Raise e, s').
Proof.
  intros Ha. induction l as [| x l IH]; intros w s Hin; [destruct Hin |].
  cbn [mapM]. unfold bind.
  destruct Hin as [-> | Hin].
  - destruct (Ha w s) as (e & s' & ->). eauto.
  - destruct (f x w s) as [[b | e] s1]; [| eauto].
    destruct (IH w s1 Hin) as (e & s' & ->). eauto.
Qed.

(** The loop does not depend on an oracle its body does not depend on. *)
Lemma mapM_ext_world (w w' : world) :
  (forall a s, f a w s = f a w' s) ->
  forall l s, mapM f l w s = mapM f l w' s.
Proof.
  intros Hf. induction l as [| a l IH]; intros s; [reflexivity |].
  cbn [mapM]. unfold bind. rewrite Hf.
  destruct (f a w' s) as [[b | e] s1]; [| reflexivity].
  rewrite IH. reflexivity.
Qed.
End MapM.

(* ------------------------------------------------------------------ *)
(** ** Computations that consult nothing but the clock *)

Definition same_clock (w w' : world) : Prop :=
  utcnow_isoformat w = utcnow_isoformat w'.

Definition clock_only {A : Type} (m : M A) : Prop :=
  forall w w', same_clock w w' -> forall s, m w s = m w' s.

Create HintDb clock_only.

Lemma clock_only_ret {A : Type} (a : A) : clock_only (ret a).
Proof. intros w w' _ s. reflexivity. Qed.

Lemma clock_only_raise {A : Type} (e : exn) : clock_only (@raise A e).
Proof. intros w w' _ s. reflexivity. Qed.

Lemma clock_only_bind {A B : Type} (m : M A) (k : A -> M B) :
  clock_only m -> (forall a, clock_only (k a)) -> clock_only (bind m k).
Proof.
  intros Hm Hk w w' Hw s. unfold bind. rewrite (Hm w w' Hw s).
  destruct (m w' s) as [[a | e] s1]; [apply Hk; exact Hw | reflexivity].
Qed.

Lemma clock_only_utcnow_iso : clock_only utcnow_iso.
Proof. intros w w' Hw s. unfold utcnow_iso. rewrite Hw. reflexivity. Qed.

Lemma clock_only_py_get (a : pyval) (k : string) (d : pyval) :
  clock_only (py_get a k d).
Proof. intros w w' _ s. destruct a; reflexivity. Qed.

Lemma clock_only_py_getitem (a : pyval) (k : string) :
  clock_only (py_getitem a k).
Proof.
  intros w w' _ s. destruct a as [| | | | | | d]; try reflexivity.
  cbn [py_getitem]. destruct (dict_get d k); reflexivity.
Qed.

Lemma clock_only_entry_getattr (e : entry) (k : string) :
  clock_only (entry_getattr e k).
Proof.
  intros w w' _ s. unfold entry_getattr. destruct (dict_get e k); reflexivity.
Qed.

Lemma clock_only_py_iter (v : pyval) : clock_only (py_iter v).
Proof. intros w w' _ s. destruct v; reflexivity. Qed.

Lemma clock_only_or_else (x : pyval) (m : M pyval) :
  clock_only m -> clock_only (or_else x m).
Proof.
  intros Hm. unfold or_else. destruct (truthy x); [apply clock_only_ret | exact Hm].
Qed.

Lemma clock_only_mapM {A B : Type} (f : A -> M B) (l : list A) :
  (forall a, clock_only (f a)) -> clock_only (mapM f l).
Proof.
  intros Hf w w' Hw. apply mapM_ext_world. intros a s. apply Hf, Hw.
Qed.

#[local] Hint Resolve clock_only_ret clock_only_raise clock_only_utcnow_iso
  clock_only_py_get clock_only_py_getitem clock_only_entry_getattr
  clock_only_py_iter clock_only_or_else : clock_only.

Ltac clock_only :=
  repeat (apply clock_only_bind; [| intros ?]); auto with clock_only.

Lemma clock_only_normalise_record (a : pyval) :
  clock_only (normalise_record a).
Proof.
  unfold normalise_record. clock_only.
  apply clock_only_or_else. clock_only.
Qed.


Lemma clock_only_newsapi_record (a : pyval) : clock_only (newsapi_record a).
Proof. unfold newsapi_record. clock_only. Qed.

Lemma clock_only_normalise (raw : pyval) : clock_only (normalise raw).
Proof.
  unfold normalise. clock_only.
  apply clock_only_mapM, clock_only_normalise_record.
Qed.

(* ------------------------------------------------------------------ *)
(** ** The fallback chain (steps 1 and 2 of the keyless adapter) *)


(** The library's constructor accepted the configuration (line 109). *)
Definition client_built (w : world) (l c p : string) (m : Z) : Prop :=
  gnews_init w (mkGNews l c p m) = Ok tt.

Lemma fetch_news_gnews_built (w : world) (q l c p : string) (m : Z)
    (ff : bool) (sl : pyfloat) (s : state) :
  client_built w l c p m ->
  fetch_news_gnews q l c p m ff sl w s
  = gnews_pipeline (mkGNews l c p m) q l c m ff sl w s.
Proof.
  unfold client_built, fetch_news_gnews, bind, new_GNews.
  intros H. rewrite H. reflexivity.
Qed.

Lemma fetch_news_gnews_rejected (w : world) (q l c p : string) (m : Z)
    (ff : bool) (sl : pyfloat) (s : state) (e : exn) :
  gnews_init w (mkGNews l c p m) = Raise e ->
  fetch_news_gnews q l c p m ff sl w s = (Raise e, s).
Proof.
  unfold fetch_news_gnews, bind, new_GNews. intros H. rewrite H. reflexivity.
Qed.

Lemma fetch_news_gnews_Ok_built (w : world) (q l c p : string) (m : Z)
    (ff : bool) (sl : pyfloat) (s s' : state) (recs : list pyval) :
  fetch_news_gnews q l c p m ff sl w s = (Ok recs, s') ->
  client_built w l c p m
  /\ gnews_pipeline (mkGNews l c p m) q l c m ff sl w s = (Ok recs, s').
Proof.
  unfold client_built, fetch_news_gnews, bind, new_GNews.
  destruct (gnews_init w (mkGNews l c p m)) as [[] | e]; [| discriminate].
  auto.
Qed.

(** The state in which the fallback starts after the library was tried: the
    call is on the trace, and so is the warning when it raised. *)
Definition after_library_attempt (w : world) (gn : GNews) (query : string)
    (s : state) : state :=
  match gnews_get_news w gn query with
  | Ok _ => emit (EvGetNews gn query) s
  | Raise e => emit (EvLogWarning gnews_warning e) (emit (EvGetNews gn query) s)
  end.

(** The library call failed to produce records: it raised something
    [except Exception] catches, or returned a falsy value ([[]], [None]). *)
Definition library_gave_nothing (w : world) (gn : GNews) (query : string) : Prop :=
  match gnews_get_news w gn query with
  | Ok v => truthy v = false
  | Raise e => is_Exception e = true
  end.







(* ------------------------------------------------------------------ *)
(** ** What one record becomes *)

Lemma bind_Ok {A B : Type} (m : M A) (k : A -> M B) (w : world)
    (s s' : state) (b : B) :
  bind m k w s = (Ok b, s') ->
  exists a s1, m w s = (Ok a, s1) /\ k a w s1 = (Ok b, s').
Proof.
  unfold bind. destruct (m w s) as [[a | e] s1]; [| discriminate].
  intros H. now exists a, s1.
Qed.

Lemma ret_Ok {A : Type} (a b : A) (w : world) (s s' : state) :
  ret a w s = (Ok b, s') -> b = a /\ s' = s.
Proof. unfold ret. intros H. inversion H. auto. Qed.

Lemma py_getitem_Ok (a : pyval) (k : string) (w : world) (s s' : state)
    (v : pyval) :
  py_getitem a k w s = (Ok v, s') -> field a k = Some v /\ s' = s.
Proof.
  destruct a as [| | | | | | d]; try discriminate.
  cbn [py_getitem field]. destruct (dict_get d k); [| discriminate].
  intros H. apply ret_Ok in H. destruct H as [-> ->]. auto.
Qed.

Lemma py_get_Ok (a : pyval) (k : string) (dflt : pyval) (w : world)
    (s s' : state) (v : pyval) :
  py_get a k dflt w s = (Ok v, s') ->
  exists d, a = PDict d /\ v = dict_get_or d k dflt /\ s' = s.
Proof.
  destruct a as [| | | | | | d]; try discriminate.
  cbn [py_get]. intros H. apply ret_Ok in H. destruct H as [-> ->].
  now exists d.
Qed.

Lemma entry_getattr_Ok (e : entry) (k : string) (w : world) (s s' : state)
    (v : pyval) :
  entry_getattr e k w s = (Ok v, s') -> dict_get e k = Some v /\ s' = s.
Proof.
  unfold entry_getattr. destruct (dict_get e k); [| discriminate].
  intros H. apply ret_Ok in H. destruct H as [-> ->]. auto.
Qed.

Lemma utcnow_iso_Ok (w : world) (s s' : state) (v : pyval) :
  utcnow_iso w s = (Ok v, s') ->
  v = PStr (utcnow_isoformat w (clock_reads s)) /\ s' = tick s.
Proof. unfold utcnow_iso. intros H. inversion H. auto. Qed.

(** Peel the binds of a successful run, left to right. *)
Ltac bind_inv H :=
  let a := fresh "v" in
  let s1 := fresh "s" in
  let H1 := fresh "H" in
  apply bind_Ok in H; destruct H as (a & s1 & H1 & H).

Definition canonical_keys : list string :=
  ["source"; "title"; "description"; "url"; "image"; "published_at";
   "fetched_at"].

(** The record [normalise_record] builds from a dict holding a title and a
    url, and the clock reading it costs when the dict has no usable stamp. *)
Definition normalised_of (w : world) (s : state) (d : list (string * pyval))
    (title url : pyval) : pyval :=
  PDict
    [ ("source", py_or (dict_get_or d "source" PNone)
                       (dict_get_or d "publisher" PNone));
      ("title", title);
      ("description", dict_get_or d "description" (PStr ""));
      ("url", url);
      ("image", dict_get_or d "image" PNone);
      ("published_at",
        py_or (dict_get_or d "published_at" PNone)
              (py_or (dict_get_or d "published date" PNone)
                     (dict_get_or d "published" PNone)));
      ("fetched_at",
        py_or (dict_get_or d "fetched_at" PNone)
              (PStr (utcnow_isoformat w (clock_reads s)))) ].

Lemma normalise_record_dict (d : list (string * pyval)) (t u : pyval)
    (w : world) (s : state) :
  dict_get d "title" = Some t ->
  dict_get d "url" = Some u ->
  normalise_record (PDict d) w s
  = (Ok (normalised_of w s d t u),
     if truthy (dict_get_or d "fetched_at" PNone) then s else tick s).
Proof.
  intros Ht Hu.
  unfold normalise_record, normalised_of, bind, or_else, py_or, py_get,
    py_getitem, utcnow_iso, ret.
  rewrite Ht, Hu.
  destruct (truthy (dict_get_or d "source" PNone));
    destruct (truthy (dict_get_or d "published_at" PNone));
    destruct (truthy (dict_get_or d "published date" PNone));
    destruct (truthy (dict_get_or d "fetched_at" PNone)); reflexivity.
Qed.

Lemma normalise_record_Ok (a : pyval) (w : world) (s s' : state) (r : pyval) :
  normalise_record a w s = (Ok r, s') ->
  exists d t u,
    a = PDict d /\ dict_get d "title" = Some t /\ dict_get d "url" = Some u.
Proof.
  unfold normalise_record. intros H.
  bind_inv H. apply py_get_Ok in H0. destruct H0 as (d & -> & _ & ->).
  bind_inv H. bind_inv H. apply py_getitem_Ok in H1. destruct H1 as [Ht ->].
  bind_inv H. bind_inv H. apply py_getitem_Ok in H2. destruct H2 as [Hu _].
  exists d. cbn [field] in Ht, Hu. eauto.
Qed.

Lemma newsapi_record_Ok (a : pyval) (w : world) (s s' : state) (r : pyval) :
  newsapi_record a w s = (Ok r, s') ->
  exists src name t desc u img pub,
    field a "source" = Some src /\ field src "name" = Some name
    /\ field a "title" = Some t /\ field a "description" = Some desc
    /\ field a "url" = Some u /\ field a "urlToImage" = Some img
    /\ field a "publishedAt" = Some pub
    /\ r = PDict [ ("source", name); ("title", t); ("description", desc);
                   ("url", u); ("image", img); ("published_at", pub);
                   ("fetched_at", PStr (utcnow_isoformat w (clock_reads s))) ]
    /\ s' = tick s.
Proof.
  unfold newsapi_record. intros H.
  repeat (bind_inv H;
          match goal with
          | H' : py_getitem _ _ _ _ = _ |- _ =>
              apply py_getitem_Ok in H'; destruct H' as [? ->]
          | H' : utcnow_iso _ _ = _ |- _ =>
              apply utcnow_iso_Ok in H'; destruct H' as [-> ->]
          end).
  apply ret_Ok in H. destruct H as [-> ->].
  do 7 eexists. repeat (split; [eassumption |]). auto.
Qed.

Lemma rss_record_Ok (e : entry) (w : world) (s s' : state) (r : pyval) :
  rss_record e w s = (Ok r, s') ->
  exists sd t u,
    entry_get e "source" (PDict []) = PDict sd
    /\ dict_get e "title" = Some t /\ dict_get e "link" = Some u
    /\ r = PDict [ ("source", dict_get_or sd "title" (PStr ""));
                   ("title", t);
                   ("description", entry_get e "summary" (PStr ""));
                   ("url", u);
                   ("image", PNone);
                   ("published_at", entry_get e "published" PNone);
                   ("fetched_at", PStr (utcnow_isoformat w (clock_reads s))) ]
    /\ s' = tick s.
Proof.
  unfold rss_record. intros H.
  bind_inv H. apply py_get_Ok in H0. destruct H0 as (sd & Hsd & -> & ->).
  bind_inv H. apply entry_getattr_Ok in H0. destruct H0 as [Ht ->].
  bind_inv H. apply entry_getattr_Ok in H0. destruct H0 as [Hu ->].
  bind_inv H. apply utcnow_iso_Ok in H0. destruct H0 as [-> ->].
  apply ret_Ok in H. destruct H as [-> ->].
  exists sd. do 2 eexists.
  split; [exact Hsd |]. split; [exact Ht |]. split; [exact Hu |]. auto.
Qed.

(* ------------------------------------------------------------------ *)
(** ** Step 3: field priority and timestamp preservation *)

Definition published_keys : list string :=
  ["published_at"; "published date"; "published"].

(** The specification's wording of step 3, "first non-null wins": the value
    under the first of [keys] that is present and not [None]. *)
Fixpoint spec_first_non_null (d : list (string * pyval)) (keys : list string)
    : pyval :=
  match keys with
  | [] => PNone
  | k :: keys' =>
      match dict_get d k with
      | None | Some PNone => spec_first_non_null d keys'
      | Some v => v
      end
  end.

Definition published_at_is_first_non_null (d : list (string * pyval))
    (w : world) (s : state) : Prop :=
  forall r s',
    normalise_record (PDict d) w s = (Ok r, s') ->
    field r "published_at" = Some (spec_first_non_null d published_keys).

(** A raw record whose [published_at] is the empty string. *)
Definition blank_published_at : list (string * pyval) :=
  [ ("title", PStr "Launch day");
    ("url", PStr "https://example.com/a");
    ("published_at", PStr "");
    ("published date", PStr "B") ].

(** An empty [published_at] is not null, yet [or] passes over it. *)
Lemma published_at_skips_empty_string :
  ~ published_at_is_first_non_null blank_published_at quiet_world initial.
Proof.
  intros H.
  specialize (H _ _ (normalise_record_dict blank_published_at _ _
                       quiet_world initial eq_refl eq_refl)).
  discriminate H.
Qed.

(** C3 (amended). For every raw record holding a title and a url,
    normalisation succeeds and resolves [published_at] from the keys
    [published_at], then [published date], then [published], taking the first
    truthy value (not null and not empty); when neither of the first two is
    truthy it takes whatever [published] holds, null when absent. *)
Theorem normalise_published_at_first_truthy (d : list (string * pyval))
    (t u : pyval) (w : world) (s : state) :
  dict_get d "title" = Some t ->
  dict_get d "url" = Some u ->
  exists r s',
    normalise_record (PDict d) w s = (Ok r, s')
    /\ let pa := dict_get_or d "published_at" PNone in
       let pd := dict_get_or d "published date" PNone in
       let p := dict_get_or d "published" PNone in
       (truthy pa = true -> field r "published_at" = Some pa)
       /\ (truthy pa = false -> truthy pd = true ->
           field r "published_at" = Some pd)
       /\ (truthy pa = false -> truthy pd = false ->
           field r "published_at" = Some p).
Proof.
  intros Ht Hu. eexists. eexists.
  split; [apply (normalise_record_dict d t u w s Ht Hu) |].
  cbv zeta. unfold normalised_of, py_or. cbn [field dict_get String.eqb Ascii.eqb Bool.eqb].
  repeat split; intros H1; try intros H2; rewrite H1; try rewrite H2; reflexivity.
Qed.

(** A record in the aggregation library's own shape, carrying two of the
    three date keys. *)
Definition dated_record : list (string * pyval) :=
  [ ("title", PStr "Launch day");
    ("url", PStr "https://example.com/a");
    ("published_at", PStr "A");
    ("published date", PStr "B") ].

Lemma normalise_published_at_first_truthy_witness :
  exists r s',
    normalise_record (PDict dated_record) quiet_world initial = (Ok r, s')
    /\ let pa := dict_get_or dated_record "published_at" PNone in
       let pd := dict_get_or dated_record "published date" PNone in
       let p := dict_get_or dated_record "published" PNone in
       (truthy pa = true -> field r "published_at" = Some pa)
       /\ (truthy pa = false -> truthy pd = true ->
           field r "published_at" = Some pd)
       /\ (truthy pa = false -> truthy pd = false ->
           field r "published_at" = Some p).
Proof.
  apply (normalise_published_at_first_truthy dated_record
           (PStr "Launch day") (PStr "https://example.com/a"));
    reflexivity.
Defined.

(** The field-priority example of the specification: with
    [published_at = "A"] and [published date = "B"], the result is ["A"]. *)
Example published_at_A_before_B :
  exists r s',
    normalise_record (PDict dated_record) quiet_world initial = (Ok r, s')
    /\ field r "published_at" = Some (PStr "A").
Proof. eexists. eexists. split; reflexivity. Qed.

Definition keeps_carried_fetched_at (d : list (string * pyval))
    (w : world) (s : state) : Prop :=
  forall v r s',
    dict_get d "fetched_at" = Some v -> v <> PNone ->
    normalise_record (PDict d) w s = (Ok r, s') ->
    field r "fetched_at" = Some v.

(** A raw record that carries an empty [fetched_at]. *)
Definition blank_fetched_at : list (string * pyval) :=
  [ ("title", PStr "Launch day");
    ("url", PStr "https://example.com/a");
    ("fetched_at", PStr "") ].

(** A carried but empty [fetched_at] is overwritten with the current time. *)
Lemma empty_fetched_at_is_restamped :
  ~ keeps_carried_fetched_at blank_fetched_at quiet_world initial.
Proof.
  intros H.
  specialize (H (PStr "") _ _ eq_refl ltac:(discriminate)
                (normalise_record_dict blank_fetched_at _ _
                   quiet_world initial eq_refl eq_refl)).
  discriminate H.
Qed.

(** C4 (amended). For every raw record holding a title and a url,
    normalisation succeeds; a truthy [fetched_at] carried by the record (not
    null, not empty) is returned unchanged and the clock is not read; a
    record without one is stamped with the current clock reading. *)
Theorem normalise_preserves_fetched_at (d : list (string * pyval))
    (t u : pyval) (w : world) (s : state) :
  dict_get d "title" = Some t ->
  dict_get d "url" = Some u ->
  exists r s',
    normalise_record (PDict d) w s = (Ok r, s')
    /\ let f := dict_get_or d "fetched_at" PNone in
       (truthy f = true -> field r "fetched_at" = Some f /\ s' = s)
       /\ (truthy f = false ->
           field r "fetched_at"
           = Some (PStr (utcnow_isoformat w (clock_reads s)))
           /\ s' = tick s).
Proof.
  intros Ht Hu. eexists. eexists.
  split; [apply (normalise_record_dict d t u w s Ht Hu) |].
  cbv zeta. unfold normalised_of. cbn [field dict_get String.eqb Ascii.eqb Bool.eqb].
  unfold py_or.
  split; intros H; rewrite H; auto.
Qed.

(** A record stamped earlier in the chain. *)
Definition stamped_record : list (string * pyval) :=
  [ ("title", PStr "Launch day");
    ("url", PStr "https://example.com/a");
    ("fetched_at", PStr "T0") ].

Lemma normalise_preserves_fetched_at_witness :
  exists r s',
    normalise_record (PDict stamped_record) quiet_world initial = (Ok r, s')
    /\ let f := dict_get_or stamped_record "fetched_at" PNone in
       (truthy f = true -> field r "fetched_at" = Some f /\ s' = initial)
       /\ (truthy f = false ->
           field r "fetched_at"
           = Some (PStr (utcnow_isoformat quiet_world (clock_reads initial)))
           /\ s' = tick initial).
Proof.
  apply (normalise_preserves_fetched_at stamped_record
           (PStr "Launch day") (PStr "https://example.com/a"));
    reflexivity.
Defined.

(** The timestamp-preservation example of the specification. *)
Example fetched_at_T0_retained :
  exists r,
    normalise_record (PDict stamped_record) quiet_world initial
    = (Ok r, initial)
    /\ field r "fetched_at" = Some (PStr "T0").
Proof. eexists. split; reflexivity. Qed.

(* ------------------------------------------------------------------ *)
(** ** What a successful adapter call went through *)

Lemma normalise_record_Ok_shape (a : pyval) (w : world) (s s' : state)
    (r : pyval) :
  normalise_record a w s = (Ok r, s') ->
  exists d t u,
    a = PDict d /\ dict_get d "title" = Some t /\ dict_get d "url" = Some u
    /\ r = normalised_of w s d t u
    /\ s' = if truthy (dict_get_or d "fetched_at" PNone) then s else tick s.
Proof.
  intros H. destruct (normalise_record_Ok _ _ _ _ _ H) as (d & t & u & -> & Ht & Hu).
  rewrite (normalise_record_dict d t u w s Ht Hu) in H. inversion H.
  exists d, t, u. auto.
Qed.

Lemma py_iter_Ok (v : pyval) (w : world) (s s' : state) (items : list pyval) :
  py_iter v w s = (Ok items, s') -> s' = s.
Proof.
  destruct v; cbn; unfold ret, raise; intros H; inversion H; reflexivity.
Qed.

(** The keyed adapter returned: a key was resolved, the request went out
    with it, the response passed [raise_for_status], its body decoded, and
    the records are the images of the articles. *)
Lemma fetch_news_newsapi_Ok (api_key : option string) (q l : string) (ps : Z)
    (w : world) (s s' : state) (recs : list pyval) :
  fetch_news_newsapi api_key q l ps w s = (Ok recs, s') ->
  exists key resp d items s1,
    key <> ""
    /\ requests_get w newsapi_url (newsapi_params q l ps key) 10 = Ok resp
    /\ raise_for_status resp = Ok tt
    /\ json resp = Ok (PDict d)
    /\ py_iter (dict_get_or d "articles" (PList [])) w s1 = (Ok items, s1)
    /\ mapM newsapi_record items w s1 = (Ok recs, s').
Proof.
  unfold fetch_news_newsapi. intros H.
  apply bind_Ok in H. destruct H as (k & s0 & _ & H).
  destruct k as [key |]; [| discriminate].
  destruct (key =? "") eqn:Hkey; [discriminate |]. cbn [negb] in H.
  unfold newsapi_request in H.
  apply bind_Ok in H. destruct H as (resp & s1 & Hreq & H).
  apply bind_Ok in H. destruct H as ([] & s2 & Hst & H).
  apply bind_Ok in H. destruct H as (body & s3 & Hjs & H).
  apply bind_Ok in H. destruct H as (arts & s4 & Hget & H).
  apply bind_Ok in H. destruct H as (items & s5 & Hit & H).
  unfold http_get in Hreq. inversion Hreq as [[Hresp Hs1]]; clear Hreq.
  unfold lift in Hst, Hjs.
  inversion Hst as [[Hok Hs2]]; clear Hst.
  inversion Hjs as [[Hbody Hs3]]; clear Hjs.
  apply py_get_Ok in Hget. destruct Hget as (d & -> & -> & ->).
  pose proof (py_iter_Ok _ _ _ _ _ Hit) as ->.
  exists key, resp, d, items, s3.
  split; [apply String.eqb_neq; exact Hkey |]. auto.
Qed.

Lemma _fallback_to_rss_Ok (q l c : string) (m : Z) (w : world)
    (s s' : state) (recs : list pyval) :
  _fallback_to_rss q l c m w s = (Ok recs, s') ->
  exists entries,
    feedparser_parse w (rss_url q l c) = Ok entries
    /\ mapM rss_record (slice_upto m entries) w
         (emit (EvFeedParse (rss_url q l c)) s) = (Ok recs, s').
Proof.
  unfold _fallback_to_rss. intros H. bind_inv H.
  unfold feed_entries in H0. inversion H0; subst; clear H0.
  exists v. auto.
Qed.

Lemma normalise_Ok (raw : pyval) (w : world) (s s' : state)
    (recs : list pyval) :
  normalise raw w s = (Ok recs, s') ->
  exists items,
    py_iter raw w s = (Ok items, s)
    /\ mapM normalise_record items w s = (Ok recs, s').
Proof.
  unfold normalise. intros H. bind_inv H.
  pose proof (py_iter_Ok _ _ _ _ _ H0) as ->. exists v. auto.
Qed.


(** Where the raw records of a keyless call came from. *)
Inductive raw_origin (w : world) (q l c p : string) (m : Z) (ff : bool)
    (s : state) : pyval -> state -> Prop :=
| from_library (raw : pyval) :
    ff = false ->
    gnews_get_news w (mkGNews l c p m) q = Ok raw ->
    truthy raw = true ->
    raw_origin w q l c p m ff s raw (emit (EvGetNews (mkGNews l c p m) q) s)
| from_feed_forced (recs : list pyval) (s1 : state) :
    ff = true ->
    _fallback_to_rss q l c m w s = (Ok recs, s1) ->
    raw_origin w q l c p m ff s (PList recs) s1
| from_feed_fallback (recs : list pyval) (s1 : state) :
    ff = false ->
    library_gave_nothing w (mkGNews l c p m) q ->
    _fallback_to_rss q l c m w
      (after_library_attempt w (mkGNews l c p m) q s) = (Ok recs, s1) ->
    raw_origin w q l c p m ff s (PList recs) s1.

Lemma fetch_news_gnews_Ok (q l c p : string) (m : Z) (ff : bool)
    (sl : pyfloat) (w : world) (s s' : state) (recs : list pyval) :
  fetch_news_gnews q l c p m ff sl w s = (Ok recs, s') ->
  exists raw s1 s2,
    raw_origin w q l c p m ff s raw s1
    /\ normalise raw w s1 = (Ok recs, s2)
    /\ post_fetch_sleep sl w s2 = (Ok tt, s').
Proof.
  intros H. apply fetch_news_gnews_Ok_built in H. destruct H as [_ H].
  unfold gnews_pipeline in H.
  bind_inv H. bind_inv H. bind_inv H. bind_inv H.
  apply ret_Ok in H. destruct H as [-> ->]. destruct v2.
  exists v0, s1, s2. split; [| auto].
  clear H2 H3. destruct ff; cbn [negb orb] in H0, H1.
  - apply ret_Ok in H0. destruct H0 as [-> ->].
    bind_inv H1. apply ret_Ok in H1. destruct H1 as [-> ->].
    now apply from_feed_forced.
  - unfold try_except_Exception, bind, get_news, logging_warning, ret in H0.
    destruct (gnews_get_news w (mkGNews l c p m) q) as [r | e] eqn:Hlib.
    + inversion H0; subst; clear H0.
      destruct (truthy r) eqn:Hr.
      * rewrite Hr in H1. cbn [negb] in H1.
        apply ret_Ok in H1. destruct H1 as [-> ->].
        now apply from_library.
      * cbn [truthy negb] in H1. bind_inv H1.
        apply ret_Ok in H1. destruct H1 as [-> ->].
        apply from_feed_fallback; [reflexivity | |].
        -- unfold library_gave_nothing. now rewrite Hlib.
        -- unfold after_library_attempt. now rewrite Hlib.
    + destruct (is_Exception e) eqn:He; [| discriminate].
      inversion H0; subst; clear H0. cbn [truthy negb] in H1.
      bind_inv H1. apply ret_Ok in H1. destruct H1 as [-> ->].
      apply from_feed_fallback; [reflexivity | |].
      * unfold library_gave_nothing. now rewrite Hlib.
      * unfold after_library_attempt. now rewrite Hlib.
Qed.

(* ------------------------------------------------------------------ *)
(** ** A keyed backend that answers *)

Definition wire_article : pyval :=
  PDict [ ("source", PDict [("id", PNone); ("name", PStr "Example Wire")]);
          ("author", PNone);
          ("title", PStr "Markets rally");
          ("description", PStr "Stocks up");
          ("url", PStr "https://example.org/1");
          ("urlToImage", PNone);
          ("publishedAt", PStr "2025-01-01T00:00:00Z");
          ("content", PNone) ].

(** An article with every field there and a null title. *)
Definition untitled_article : pyval :=
  PDict [ ("source", PDict [("id", PNone); ("name", PStr "Example Wire")]);
          ("author", PNone);
          ("title", PNone);
          ("description", PNone);
          ("url", PStr "https://example.org/removed");
          ("urlToImage", PNone);
          ("publishedAt", PStr "2025-01-01T00:00:00Z");
          ("content", PNone) ].

Definition newsapi_answer (articles : list pyval) : result Response :=
  Ok (mkResponse (Ok tt)
        (Ok (PDict [ ("status", PStr "ok");
                     ("totalResults", PInt (Z.of_nat (List.length articles)));
                     ("articles", PList articles) ]))).

Definition newsapi_serving (articles : list pyval) : world :=
  mkWorld (fun name => if name =? "NEWSAPI_KEY" then Some "secret" else None)
          (fun _ _ _ => newsapi_answer articles)
          (fun _ => Ok demo_feed)
          demo_gnews_init
          (fun _ _ => Ok library_records)
          demo_clock
          (fun _ => Ok tt).

(* ------------------------------------------------------------------ *)
(** ** Invariants of the canonical record *)

Definition canonical (r : pyval) : Prop := keys_of r = Some canonical_keys.

Lemma newsapi_record_canonical (a : pyval) (w : world) (s : state)
    (r : pyval) (s' : state) :
  newsapi_record a w s = (Ok r, s') -> canonical r.
Proof.
  intros H. apply newsapi_record_Ok in H.
  destruct H as (src & name & t & desc & u & img & pub & H).
  destruct H as (_ & _ & _ & _ & _ & _ & _ & -> & _). reflexivity.
Qed.

Lemma rss_record_canonical (e : entry) (w : world) (s : state)
    (r : pyval) (s' : state) :
  rss_record e w s = (Ok r, s') -> canonical r.
Proof.
  intros H. apply rss_record_Ok in H.
  destruct H as (sd & t & u & _ & _ & _ & -> & _). reflexivity.
Qed.

Lemma normalise_record_canonical (a : pyval) (w : world) (s : state)
    (r : pyval) (s' : state) :
  normalise_record a w s = (Ok r, s') -> canonical r.
Proof.
  intros H. apply normalise_record_Ok_shape in H.
  destruct H as (d & t & u & _ & _ & _ & -> & _). reflexivity.
Qed.

(** C8. Every record in the list an adapter returns has exactly the keys
    source, title, description, url, image, published_at, fetched_at (in that
    order), whichever of the three adapters produced it. *)
Theorem every_record_has_canonical_keys :
  (forall api_key q l ps w s recs s',
      fetch_news_newsapi api_key q l ps w s = (Ok recs, s') ->
      Forall canonical recs)
  /\ (forall q l c m w s recs s',
         _fallback_to_rss q l c m w s = (Ok recs, s') ->
         Forall canonical recs)
  /\ (forall q l c p m ff sl w s recs s',
         fetch_news_gnews q l c p m ff sl w s = (Ok recs, s') ->
         Forall canonical recs).
Proof.
  split; [| split].
  - intros api_key q l ps w s recs s' H.
    apply fetch_news_newsapi_Ok in H.
    destruct H as (key & resp & d & items & s1 & _ & _ & _ & _ & _ & H).
    revert H. apply mapM_Ok_Forall. apply newsapi_record_canonical.
  - intros q l c m w s recs s' H.
    apply _fallback_to_rss_Ok in H. destruct H as (entries & _ & H).
    revert H. apply mapM_Ok_Forall. apply rss_record_canonical.
  - intros q l c p m ff sl w s recs s' H.
    apply fetch_news_gnews_Ok in H. destruct H as (raw & s1 & s2 & _ & H & _).
    apply normalise_Ok in H. destruct H as (items & _ & H).
    revert H. apply mapM_Ok_Forall. apply normalise_record_canonical.
Qed.

Lemma every_record_has_canonical_keys_witness :
  (exists recs s',
      fetch_news_newsapi None "World" "en" 20
        (newsapi_serving [wire_article]) initial = (Ok recs, s')
      /\ List.length recs = 1 /\ Forall canonical recs)
  /\ (exists recs s',
         _fallback_to_rss "World" "en" "US" 10 library_down initial
         = (Ok recs, s')
         /\ List.length recs = 2 /\ Forall canonical recs)
  /\ (exists recs s',
         fetch_news_gnews "World" "en" "US" "7d" 10 false (FFinite 0)
           library_up initial = (Ok recs, s')
         /\ List.length recs = 2 /\ Forall canonical recs).
Proof.
  destruct every_record_has_canonical_keys as (Hkeyed & Hfeed & Hkeyless).
  split; [| split]; eexists; eexists.
  - split; [reflexivity |]. split; [reflexivity |].
    apply (Hkeyed None "World" "en" 20%Z (newsapi_serving [wire_article])
             initial _ _ eq_refl).
  - split; [reflexivity |]. split; [reflexivity |].
    apply (Hfeed "World" "en" "US" 10%Z library_down initial _ _ eq_refl).
  - split; [reflexivity |]. split; [reflexivity |].
    apply (Hkeyless "World" "en" "US" "7d" 10%Z false (FFinite 0) library_up
             initial _ _ eq_refl).
Defined.

(** *** Title and url *)

(** The specification's wording: title and url are non-null strings. *)
Definition title_url_are_strings (r : pyval) : Prop :=
  exists t u, field r "title" = Some (PStr t) /\ field r "url" = Some (PStr u).

(** The keyed adapter passes a null title through. *)
Lemma null_title_passes_through :
  ~ (forall recs s',
        fetch_news_newsapi None "World" "en" 20
          (newsapi_serving [untitled_article]) initial = (Ok recs, s') ->
        Forall title_url_are_strings recs).
Proof.
  intros H. specialize (H _ _ eq_refl).
  inversion H as [| r rs (t & u & Ht & _) _]. discriminate Ht.
Qed.

(** The record [r] holds under title and url what the upstream record [a]
    holds under title and [link]. *)
Definition carried_over (link : string) (a r : pyval) : Prop :=
  exists t u,
    field a "title" = Some t /\ field a link = Some u
    /\ field r "title" = Some t /\ field r "url" = Some u.

Definition lacks (link : string) (a : pyval) : Prop :=
  field a "title" = None \/ field a link = None.

Lemma carried_over_not_lacks (link : string) (a r : pyval) :
  carried_over link a r -> ~ lacks link a.
Proof. intros (t & u & Ht & Hu & _) [H | H]; congruence. Qed.

Lemma newsapi_record_carries (a : pyval) (w : world) (s : state)
    (r : pyval) (s' : state) :
  newsapi_record a w s = (Ok r, s') -> carried_over "url" a r.
Proof.
  intros H. apply newsapi_record_Ok in H.
  destruct H as (src & name & t & desc & u & img & pub & H).
  destruct H as (_ & _ & Ht & _ & Hu & _ & _ & -> & _).
  exists t, u. repeat split; assumption || reflexivity.
Qed.

Lemma rss_record_carries (e : entry) (w : world) (s : state)
    (r : pyval) (s' : state) :
  rss_record e w s = (Ok r, s') -> carried_over "link" (PDict e) r.
Proof.
  intros H. apply rss_record_Ok in H.
  destruct H as (sd & t & u & _ & Ht & Hu & -> & _).
  exists t, u. repeat split; assumption || reflexivity.
Qed.

Lemma normalise_record_carries (a : pyval) (w : world) (s : state)
    (r : pyval) (s' : state) :
  normalise_record a w s = (Ok r, s') -> carried_over "url" a r.
Proof.
  intros H. apply normalise_record_Ok_shape in H.
  destruct H as (d & t & u & -> & Ht & Hu & -> & _).
  exists t, u. repeat split; assumption || reflexivity.
Qed.

Section HardFailure.
Context {A : Type}.
Variable build : A -> M pyval.
Variable upstream : A -> pyval.
Variable link : string.
Hypothesis build_carries :
  forall a w s r s', build a w s = (Ok r, s') -> carried_over link (upstream a) r.

Lemma lacking_record_raises (a : A) (w : world) (s : state) :
  lacks link (upstream a) -> exists e s', build a w s = (Raise e, s').
Proof.
  intros Hl. destruct (build a w s) as [[r | e] s'] eqn:H; [| eauto].
  apply build_carries in H. now apply carried_over_not_lacks in H.
Qed.

Lemma loop_carries (l : list A) (w : world) (s : state)
    (recs : list pyval) (s' : state) :
  mapM build l w s = (Ok recs, s') ->
  Forall2 (fun a r => carried_over link (upstream a) r) l recs.
Proof. apply mapM_Ok_Forall2. exact build_carries. Qed.

Lemma loop_raises (l : list A) (w : world) (s : state) :
  Exists (fun a => lacks link (upstream a)) l ->
  exists e s', mapM build l w s = (Raise e, s').
Proof.
  intros H. apply Exists_exists in H. destruct H as (a & Hin & Hl).
  apply (mapM_raises build a); [| exact Hin].
  intros w0 s0. now apply lacking_record_raises.
Qed.
End HardFailure.

(* ------------------------------------------------------------------ *)
(** ** The source field on the feed path *)

(** The feed-fallback adapter gives an entry without a source the empty
    string. *)
Example fallback_source_default :
  exists recs s',
    _fallback_to_rss "World" "en" "US" 10 library_down initial = (Ok recs, s')
    /\ map (fun r => field r "source") recs
       = [Some (PStr "Example Wire"); Some (PStr "")].
Proof. eexists. eexists. split; reflexivity. Qed.

(** C6. With the aggregation library raising, the keyless adapter returns
    the feed's records, but the record of the entry that has no source
    leaves normalisation with a null source: the empty string the feed
    adapter put there is falsy, so [a.get("source") or a.get("publisher")]
    replaces it by the absent publisher. *)
Theorem sourceless_entry_ends_with_null_source :
  exists recs s',
    fetch_news_gnews "World" "en" "US" "7d" 10 false (FFinite 0)
      library_down initial = (Ok recs, s')
    /\ map (fun r => field r "source") recs
       = [Some (PStr "Example Wire"); Some PNone].
Proof. eexists. eexists. split; reflexivity. Qed.

(* ------------------------------------------------------------------ *)
(** ** Computations that leave the trace alone *)

Definition silent {A : Type} (m : M A) : Prop :=
  forall w s, trace (snd (m w s)) = trace s.

Lemma silent_ret {A : Type} (a : A) : silent (ret a).
Proof. intros w s. reflexivity. Qed.

Lemma silent_raise {A : Type} (e : exn) : silent (@raise A e).
Proof. intros w s. reflexivity. Qed.

Lemma silent_lift {A : Type} (r : result A) : silent (lift r).
Proof. intros w s. reflexivity. Qed.

Lemma silent_bind {A B : Type} (m : M A) (k : A -> M B) :
  silent m -> (forall a, silent (k a)) -> silent (bind m k).
Proof.
  intros Hm Hk w s. unfold bind. specialize (Hm w s).
  destruct (m w s) as [[a | e] s1]; cbn [snd] in *.
  - rewrite Hk. exact Hm.
  - exact Hm.
Qed.

Lemma silent_utcnow_iso : silent utcnow_iso.
Proof. intros w s. reflexivity. Qed.

Lemma silent_py_get (a : pyval) (k : string) (d : pyval) :
  silent (py_get a k d).
Proof. intros w s. destruct a; reflexivity. Qed.

Lemma silent_py_getitem (a : pyval) (k : string) : silent (py_getitem a k).
Proof.
  intros w s. destruct a as [| | | | | | d]; try reflexivity.
  cbn [py_getitem]. destruct (dict_get d k); reflexivity.
Qed.

Lemma silent_py_iter (v : pyval) : silent (py_iter v).
Proof. intros w s. destruct v; reflexivity. Qed.

Lemma silent_mapM {A B : Type} (f : A -> M B) (l : list A) :
  (forall a, silent (f a)) -> silent (mapM f l).
Proof.
  intros Hf. induction l as [| a l IH]; [apply silent_ret |].
  cbn [mapM]. apply silent_bind; [apply Hf |]. intros b.
  apply silent_bind; [exact IH |]. intros bs. apply silent_ret.
Qed.

Create HintDb silent.

#[local] Hint Resolve silent_ret silent_raise silent_lift silent_utcnow_iso
  silent_py_get silent_py_getitem silent_py_iter : silent.

Ltac silent := repeat (apply silent_bind; [| intros ?]); auto with silent.

Lemma silent_newsapi_record (a : pyval) : silent (newsapi_record a).
Proof. unfold newsapi_record. silent. Qed.

(* ------------------------------------------------------------------ *)
(** ** The credential of the keyed adapter *)

Lemma fetch_news_newsapi_no_key (api_key : option string) (q l : string)
    (ps : Z) (w : world) (s : state) :
  str_truthy api_key = false ->
  str_truthy (os_getenv w "NEWSAPI_KEY") = false ->
  fetch_news_newsapi api_key q l ps w s
  = (Raise (ValueError missing_key_message), emit (EvGetenv "NEWSAPI_KEY") s).
Proof.
  intros Hk He. unfold fetch_news_newsapi, bind at 1. rewrite Hk.
  unfold getenv. cbv beta iota.
  destruct (os_getenv w "NEWSAPI_KEY") as [key |]; [| reflexivity].
  cbn [str_truthy] in He. rewrite He. reflexivity.
Qed.

(** Once a key is in hand, one request carrying that key is put on the
    trace and nothing else. *)
Lemma newsapi_request_trace (key q l : string) (ps : Z) (w : world)
    (s : state) :
  trace (snd (newsapi_request key q l ps w s))
  = EvHttpGet newsapi_url (newsapi_params q l ps key) 10 :: trace s.
Proof.
  unfold newsapi_request, bind at 1. unfold http_get.
  destruct (requests_get w newsapi_url (newsapi_params q l ps key) 10)
    as [resp | e]; [| reflexivity].
  match goal with
  | |- trace (snd (?m w ?s1)) = _ =>
      assert (Hm : silent m); [| rewrite (Hm w s1); reflexivity]
  end.
  silent. apply silent_mapM, silent_newsapi_record.
Qed.

(** The request does not look at the environment. *)
Lemma newsapi_request_env_indep (env : string -> option string)
    (key q l : string) (ps : Z) (w : world) (s : state) :
  newsapi_request key q l ps (with_getenv env w) s
  = newsapi_request key q l ps w s.
Proof.
  unfold newsapi_request, bind at 1 6. unfold http_get.
  cbn [requests_get with_getenv].
  destruct (requests_get w newsapi_url (newsapi_params q l ps key) 10)
    as [resp | e]; [| reflexivity].
  assert (Hw : same_clock (with_getenv env w) w) by reflexivity.
  match goal with
  | |- ?m _ ?s1 = _ => assert (Hm : clock_only m); [| apply (Hm _ _ Hw)]
  end.
  clock_only.
  - intros w1 w2 _ s0. reflexivity.
  - intros w1 w2 _ s0. reflexivity.
  - apply clock_only_mapM, clock_only_newsapi_record.
Qed.

(** C7. With no explicit API key and the API-key environment variable not
    set, the keyed adapter raises its missing-credential error (the
    [ValueError] of line 31) right after looking the variable up: no
    request has gone out and no other backend has been tried. *)
Theorem fetch_news_newsapi_missing_key (q l : string) (ps : Z) (w : world)
    (s : state) :
  os_getenv w "NEWSAPI_KEY" = None ->
  fetch_news_newsapi None q l ps w s
  = (Raise (ValueError missing_key_message), emit (EvGetenv "NEWSAPI_KEY") s).
Proof.
  intros He. apply fetch_news_newsapi_no_key; [reflexivity |].
  rewrite He. reflexivity.
Qed.

Lemma fetch_news_newsapi_missing_key_witness :
  os_getenv quiet_world "NEWSAPI_KEY" = None
  /\ fetch_news_newsapi None "World" "en" 20 quiet_world initial
     = (Raise (ValueError missing_key_message),
        emit (EvGetenv "NEWSAPI_KEY") initial).
Proof.
  split; [reflexivity |].
  apply (fetch_news_newsapi_missing_key "World" "en" 20 quiet_world initial).
  reflexivity.
Defined.

(** C10. A non-empty explicit [api_key] is the credential of the request
    and the environment is not consulted: the outcome is the same under any
    environment, and the call puts on the trace the one request carrying
    that key and no environment lookup.  An explicit empty string behaves
    exactly as an absent key: the variable is looked up and its non-empty
    value is the credential; when it is unset or empty too, the
    missing-key error is raised. *)
Theorem fetch_news_newsapi_key_resolution (q l : string) (ps : Z)
    (w : world) (s : state) :
  (forall key, key <> "" ->
     (forall env,
         fetch_news_newsapi (Some key) q l ps (with_getenv env w) s
         = fetch_news_newsapi (Some key) q l ps w s)
     /\ trace (snd (fetch_news_newsapi (Some key) q l ps w s))
        = EvHttpGet newsapi_url (newsapi_params q l ps key) 10 :: trace s)
  /\ fetch_news_newsapi (Some "") q l ps w s
     = fetch_news_newsapi None q l ps w s
  /\ (forall key, os_getenv w "NEWSAPI_KEY" = Some key -> key <> "" ->
      trace (snd (fetch_news_newsapi (Some "") q l ps w s))
      = EvHttpGet newsapi_url (newsapi_params q l ps key) 10
          :: EvGetenv "NEWSAPI_KEY" :: trace s)
  /\ (str_truthy (os_getenv w "NEWSAPI_KEY") = false ->
      fetch_news_newsapi (Some "") q l ps w s
      = (Raise (ValueError missing_key_message),
         emit (EvGetenv "NEWSAPI_KEY") s)).
Proof.
  split; [| split; [| split]].
  - intros key Hkey. apply String.eqb_neq in Hkey. split.
    + intros env. unfold fetch_news_newsapi, bind.
      cbn [str_truthy]. rewrite Hkey. cbn [negb ret]. rewrite Hkey.
      apply newsapi_request_env_indep.
    + unfold fetch_news_newsapi, bind.
      cbn [str_truthy]. rewrite Hkey. cbn [negb ret]. rewrite Hkey.
      apply newsapi_request_trace.
  - reflexivity.
  - intros key He Hkey. apply String.eqb_neq in Hkey.
    unfold fetch_news_newsapi, bind.
    cbn [str_truthy String.eqb negb]. unfold getenv. rewrite He, Hkey.
    cbn [negb]. rewrite newsapi_request_trace. reflexivity.
  - apply fetch_news_newsapi_no_key. reflexivity.
Qed.

Lemma fetch_news_newsapi_key_resolution_witness :
  ("explicit" <> ""
   /\ fetch_news_newsapi (Some "explicit") "World" "en" 20
        (with_getenv (fun _ => None) (newsapi_serving [wire_article])) initial
      = fetch_news_newsapi (Some "explicit") "World" "en" 20
          (newsapi_serving [wire_article]) initial
   /\ trace (snd (fetch_news_newsapi (Some "explicit") "World" "en" 20
                    (newsapi_serving [wire_article]) initial))
      = [EvHttpGet newsapi_url (newsapi_params "World" "en" 20 "explicit") 10])
  /\ (os_getenv (newsapi_serving [wire_article]) "NEWSAPI_KEY" = Some "secret"
      /\ trace (snd (fetch_news_newsapi (Some "") "World" "en" 20
                       (newsapi_serving [wire_article]) initial))
         = [EvHttpGet newsapi_url (newsapi_params "World" "en" 20 "secret") 10;
            EvGetenv "NEWSAPI_KEY"])
  /\ (str_truthy (os_getenv quiet_world "NEWSAPI_KEY") = false
      /\ fetch_news_newsapi (Some "") "World" "en" 20 quiet_world initial
         = (Raise (ValueError missing_key_message),
            emit (EvGetenv "NEWSAPI_KEY") initial)).
Proof.
  assert (Hne : "explicit" <> "") by discriminate.
  assert (Hns : "secret" <> "") by discriminate.
  destruct (fetch_news_newsapi_key_resolution "World" "en" 20
              (newsapi_serving [wire_article]) initial)
    as (Hexplicit & _ & Henv & _).
  destruct (fetch_news_newsapi_key_resolution "World" "en" 20
              quiet_world initial) as (_ & _ & _ & Hnone).
  split; [| split].
  - split; [exact Hne |]. destruct (Hexplicit "explicit" Hne) as [Hi Ht].
    split; [apply Hi | exact Ht].
  - split; [reflexivity |]. exact (Henv "secret" eq_refl Hns).
  - split; [reflexivity |]. exact (Hnone eq_refl).
Defined.

(* ------------------------------------------------------------------ *)
(** ** Order of the [fetched_at] stamps within one call *)

Definition fetched_ats (recs : list pyval) : list (option pyval) :=
  map (fun r => field r "fetched_at") recs.








(** The readings [n], [n+1], ... of the clock, one per record. *)
Definition readings (w : world) (n k : nat) : list (option pyval) :=
  map (fun i => Some (PStr (utcnow_isoformat w i))) (seq n k).










Lemma readings_length (w : world) (n k : nat) :
  List.length (readings w n k) = k.
Proof. unfold readings. rewrite length_map. apply length_seq. Qed.





Lemma demo_clock_nonempty (i : nat) : demo_clock i <> "".
Proof. unfold demo_clock. discriminate. Qed.


(* ================================================================== *)
(** * Further properties of the adapters *)

(** The same world with another feed parser, or another [time.sleep]. *)
Definition with_feed (f : string -> result (list entry)) (w : world) : world :=
  mkWorld (os_getenv w) (requests_get w) f (gnews_init w) (gnews_get_news w)
          (utcnow_isoformat w) (time_sleep w).

Definition with_sleep (f : pyfloat -> result unit) (w : world) : world :=
  mkWorld (os_getenv w) (requests_get w) (feedparser_parse w) (gnews_init w)
          (gnews_get_news w) (utcnow_isoformat w) f.

Lemma mapM_Ok_length {A B : Type} (f : A -> M B) (l : list A) (w : world)
    (s s' : state) (rs : list B) :
  mapM f l w s = (Ok rs, s') -> List.length rs = List.length l.
Proof.
  intros H. apply (mapM_Ok_Forall2 f (fun _ _ => True)) in H; [| auto].
  revert H. clear. induction 1; cbn; congruence.
Qed.

(* ------------------------------------------------------------------ *)
(** ** The feed-fallback adapter: cap, order, mapping, success *)

Lemma slice_upto_length {A : Type} (m : Z) (l : list A) :
  List.length (slice_upto m l)
  = if (0 <=? m)%Z then Nat.min (Z.to_nat m) (List.length l)
    else List.length l - Z.to_nat (- m).
Proof.
  unfold slice_upto. destruct (0 <=? m)%Z; rewrite length_firstn; lia.
Qed.

(** X1. The feed-fallback adapter returns one record per entry of
    [entries[:max_results]]: for a cap that is not negative that is the
    smaller of the cap and the number of entries, so never more than the cap;
    a negative cap does not mean "none" but drops that many entries from the
    end of the feed. *)
Theorem fallback_result_count (q l c : string) (m : Z) (w : world)
    (s s' : state) (entries : list entry) (recs : list pyval) :
  feedparser_parse w (rss_url q l c) = Ok entries ->
  _fallback_to_rss q l c m w s = (Ok recs, s') ->
  List.length recs
  = (if (0 <=? m)%Z then Nat.min (Z.to_nat m) (List.length entries)
     else List.length entries - Z.to_nat (- m))
  /\ ((0 <= m)%Z -> (Z.of_nat (List.length recs) <= m)%Z)
  /\ List.length recs <= List.length entries.
Proof.
  intros Hparse H. apply _fallback_to_rss_Ok in H.
  destruct H as (entries' & Hparse' & Hloop).
  rewrite Hparse in Hparse'. inversion Hparse'; subst entries'.
  apply mapM_Ok_length in Hloop. rewrite Hloop, slice_upto_length.
  destruct (0 <=? m)%Z eqn:Hm; repeat split; try lia.
Qed.

Lemma fallback_result_count_witness :
  feedparser_parse library_down (rss_url "World" "en" "US") = Ok demo_feed
  /\ (exists recs s',
         _fallback_to_rss "World" "en" "US" 1 library_down initial
         = (Ok recs, s')
         /\ List.length recs = 1)
  /\ (exists recs s',
         _fallback_to_rss "World" "en" "US" (-1) library_down initial
         = (Ok recs, s')
         /\ List.length recs = 1).
Proof.
  split; [reflexivity |].
  split; eexists; eexists; (split; [reflexivity |]).
  - apply (fallback_result_count "World" "en" "US" 1 library_down initial
             _ demo_feed _ eq_refl eq_refl).
  - apply (fallback_result_count "World" "en" "US" (-1) library_down initial
             _ demo_feed _ eq_refl eq_refl).
Defined.

(** How one feed entry shows in its record. *)
Definition rss_mapping (e : entry) (r : pyval) : Prop :=
  field r "title" = dict_get e "title"
  /\ field r "url" = dict_get e "link"
  /\ field r "description" = Some (entry_get e "summary" (PStr ""))
  /\ field r "image" = Some PNone
  /\ field r "published_at" = Some (entry_get e "published" PNone)
  /\ exists sd,
       entry_get e "source" (PDict []) = PDict sd
       /\ field r "source" = Some (dict_get_or sd "title" (PStr "")).

Lemma rss_record_mapping (e : entry) (w : world) (s : state) (r : pyval)
    (s' : state) :
  rss_record e w s = (Ok r, s') -> rss_mapping e r.
Proof.
  intros H. apply rss_record_Ok in H.
  destruct H as (sd & t & u & Hsd & Ht & Hu & -> & _).
  unfold rss_mapping. cbn [field dict_get String.eqb Ascii.eqb Bool.eqb].
  repeat split; auto. exists sd. auto.
Qed.

(** X2. The records of the feed-fallback adapter are the first entries of
    the feed, in feed order, each mapped field by field: title and link
    taken as they are, summary and source.title defaulting to the empty
    string, published to null, and the image always null. *)
Theorem fallback_maps_entries_in_order (q l c : string) (m : Z) (w : world)
    (s s' : state) (entries : list entry) (recs : list pyval) :
  feedparser_parse w (rss_url q l c) = Ok entries ->
  _fallback_to_rss q l c m w s = (Ok recs, s') ->
  Forall2 rss_mapping (slice_upto m entries) recs.
Proof.
  intros Hparse H. apply _fallback_to_rss_Ok in H.
  destruct H as (entries' & Hparse' & Hloop).
  rewrite Hparse in Hparse'. inversion Hparse'; subst entries'.
  revert Hloop. apply mapM_Ok_Forall2. apply rss_record_mapping.
Qed.

Lemma fallback_maps_entries_in_order_witness :
  feedparser_parse library_down (rss_url "World" "en" "US") = Ok demo_feed
  /\ exists recs s',
       _fallback_to_rss "World" "en" "US" 10 library_down initial
       = (Ok recs, s')
       /\ Forall2 rss_mapping (slice_upto 10 demo_feed) recs.
Proof.
  split; [reflexivity |]. eexists. eexists. split; [reflexivity |].
  apply (fallback_maps_entries_in_order "World" "en" "US" 10 library_down
           initial _ demo_feed _ eq_refl eq_refl).
Defined.

(** An entry the adapter can map: it has a title and a link, and its
    source, when it has one, is a dict. *)
Definition well_formed_entry (e : entry) : Prop :=
  (exists t, dict_get e "title" = Some t)
  /\ (exists u, dict_get e "link" = Some u)
  /\ (exists sd, entry_get e "source" (PDict []) = PDict sd).

Lemma rss_record_succeeds (e : entry) (w : world) (s : state) :
  well_formed_entry e -> exists r, rss_record e w s = (Ok r, tick s).
Proof.
  intros ((t & Ht) & (u & Hu) & (sd & Hsd)).
  unfold rss_record, bind, entry_getattr, py_get, utcnow_iso, ret.
  rewrite Hsd, Ht, Hu. eexists. reflexivity.
Qed.

Lemma rss_record_Ok_well_formed (e : entry) (w : world) (s s' : state)
    (r : pyval) :
  rss_record e w s = (Ok r, s') -> well_formed_entry e.
Proof.
  intros H. apply rss_record_Ok in H.
  destruct H as (sd & t & u & Hsd & Ht & Hu & _).
  repeat split; eauto.
Qed.

Lemma rss_loop_succeeds (w : world) (es : list entry) :
  Forall well_formed_entry es ->
  forall s, exists recs,
    mapM rss_record es w s
    = (Ok recs, mkState (clock_reads s + List.length es) (trace s)).
Proof.
  induction 1 as [| e es He _ IH]; intros s.
  - exists []. cbn. unfold ret. destruct s. cbn. f_equal. f_equal. lia.
  - destruct (rss_record_succeeds e w s He) as (r & Hr).
    destruct (IH (tick s)) as (rs & Hrs).
    exists (r :: rs). cbn [mapM]. unfold bind, ret. rewrite Hr, Hrs.
    cbn [tick clock_reads trace List.length]. do 2 f_equal. lia.
Qed.

Lemma rss_loop_Ok_well_formed (w : world) (es : list entry) (s s' : state)
    (recs : list pyval) :
  mapM rss_record es w s = (Ok recs, s') -> Forall well_formed_entry es.
Proof.
  intros H.
  apply (mapM_Ok_Forall2 rss_record (fun e _ => well_formed_entry e)) in H.
  - induction H; constructor; auto.
  - intros e w0 s0 r s0' Hr. eapply rss_record_Ok_well_formed, Hr.
Qed.

(** X3. Once the feed has parsed, the feed-fallback adapter returns if and
    only if every entry under the cap is well formed; entries beyond the cap
    are never looked at.  When it returns it has read the clock once per
    record and put nothing on the trace but the feed request. *)
Theorem fallback_returns_iff_well_formed (q l c : string) (m : Z) (w : world)
    (s : state) (entries : list entry) :
  feedparser_parse w (rss_url q l c) = Ok entries ->
  ((exists recs s', _fallback_to_rss q l c m w s = (Ok recs, s'))
   <-> Forall well_formed_entry (slice_upto m entries))
  /\ (forall recs s',
         _fallback_to_rss q l c m w s = (Ok recs, s') ->
         s' = mkState (clock_reads s + List.length recs)
                (EvFeedParse (rss_url q l c) :: trace s)).
Proof.
  intros Hparse.
  assert (Hrun : _fallback_to_rss q l c m w s
                 = mapM rss_record (slice_upto m entries) w
                     (emit (EvFeedParse (rss_url q l c)) s)).
  { unfold _fallback_to_rss, bind, feed_entries. rewrite Hparse. reflexivity. }
  split; [split |].
  - intros (recs & s' & H). rewrite Hrun in H.
    eapply rss_loop_Ok_well_formed, H.
  - intros Hwf. rewrite Hrun.
    destruct (rss_loop_succeeds w _ Hwf (emit (EvFeedParse (rss_url q l c)) s))
      as (recs & Hrecs).
    exists recs. eexists. exact Hrecs.
  - intros recs s' H. rewrite Hrun in H.
    pose proof (mapM_Ok_length _ _ _ _ _ _ H) as Hlen.
    pose proof (rss_loop_Ok_well_formed _ _ _ _ _ H) as Hwf.
    destruct (rss_loop_succeeds w _ Hwf (emit (EvFeedParse (rss_url q l c)) s))
      as (recs' & Hrecs).
    rewrite Hrecs in H. inversion H; subst. rewrite Hlen. reflexivity.
Qed.

Lemma fallback_returns_iff_well_formed_witness :
  feedparser_parse library_down (rss_url "World" "en" "US") = Ok demo_feed
  /\ Forall well_formed_entry (slice_upto 10 demo_feed)
  /\ exists recs s',
       _fallback_to_rss "World" "en" "US" 10 library_down initial
       = (Ok recs, s').
Proof.
  split; [reflexivity |].
  assert (Hwf : Forall well_formed_entry (slice_upto 10 demo_feed)).
  { repeat constructor; eexists; reflexivity. }
  split; [exact Hwf |].
  apply (proj1 (fallback_returns_iff_well_formed "World" "en" "US" 10
                  library_down initial demo_feed eq_refl)).
  exact Hwf.
Defined.

(* ------------------------------------------------------------------ *)
(** ** The keyless adapter: which path, which failures, the pause *)

(** The feed fallback is taken: forced, or the library gave nothing. *)
Definition fallback_taken (w : world) (q l c p : string) (m : Z) (ff : bool)
    : Prop :=
  ff = true \/ (ff = false /\ library_gave_nothing w (mkGNews l c p m) q).

(** The state in which the fallback then starts. *)
Definition fallback_start (w : world) (q l c p : string) (m : Z) (ff : bool)
    (s : state) : state :=
  if ff then s else after_library_attempt w (mkGNews l c p m) q s.

Lemma fetch_news_gnews_on_fallback (w : world) (q l c p : string) (m : Z)
    (ff : bool) (sl : pyfloat) (s : state) :
  client_built w l c p m ->
  fallback_taken w q l c p m ff ->
  fetch_news_gnews q l c p m ff sl w s
  = normalised_fallback q l c m sl w (fallback_start w q l c p m ff s).
Proof.
  intros Hbuilt. rewrite (fetch_news_gnews_built _ _ _ _ _ _ _ _ _ Hbuilt).
  unfold fallback_taken, fallback_start.
  intros [-> | [-> H]].
  - unfold gnews_pipeline, normalised_fallback.
    cbn [negb orb]. unfold bind, ret.
    destruct (_fallback_to_rss q l c m w s) as [[recs | e] s1]; reflexivity.
  - unfold library_gave_nothing in H.
    unfold after_library_attempt, gnews_pipeline, normalised_fallback.
    cbn [negb orb]. unfold try_except_Exception, bind at 1 2 3, get_news.
    destruct (gnews_get_news w (mkGNews l c p m) q) as [v | e].
    + cbn [ret]. rewrite H. cbn [truthy negb]. unfold bind, ret.
      destruct (_fallback_to_rss q l c m w _) as [[recs | e] s1]; reflexivity.
    + rewrite H. unfold logging_warning, bind, ret. cbn [truthy negb].
      destruct (_fallback_to_rss q l c m w _) as [[recs | e'] s1]; reflexivity.
Qed.

(** X4. When the client is built, the fallback is taken and the feed
    request itself raises, the keyless adapter raises that same error:
    nothing is normalised, the clock is not read and the pause is skipped. *)
Theorem feed_failure_propagates (w : world) (q l c p : string) (m : Z)
    (ff : bool) (sl : pyfloat) (s : state) (e : exn) :
  client_built w l c p m ->
  fallback_taken w q l c p m ff ->
  feedparser_parse w (rss_url q l c) = Raise e ->
  fetch_news_gnews q l c p m ff sl w s
  = (Raise e,
     emit (EvFeedParse (rss_url q l c)) (fallback_start w q l c p m ff s)).
Proof.
  intros Hbuilt Hfb Hfeed.
  rewrite (fetch_news_gnews_on_fallback _ _ _ _ _ _ _ _ _ Hbuilt Hfb).
  unfold normalised_fallback, _fallback_to_rss, bind, feed_entries.
  rewrite Hfeed. reflexivity.
Qed.

(** The feed is unreachable and the library raises. *)
Definition all_down : world :=
  mkWorld (fun _ => None)
          (fun _ _ _ => offline)
          (fun _ => Raise (LibraryError "URLError" "unreachable"))
          demo_gnews_init
          (fun _ _ => Raise (LibraryError "HTTPError" "429 Too Many Requests"))
          demo_clock
          (fun _ => Ok tt).

Lemma feed_failure_propagates_witness :
  client_built all_down "en" "US" "7d" 10
  /\ fallback_taken all_down "World" "en" "US" "7d" 10 false
  /\ feedparser_parse all_down (rss_url "World" "en" "US")
     = Raise (LibraryError "URLError" "unreachable")
  /\ fetch_news_gnews "World" "en" "US" "7d" 10 false (FFinite 1)
       all_down initial
     = (Raise (LibraryError "URLError" "unreachable"),
        emit (EvFeedParse (rss_url "World" "en" "US"))
          (fallback_start all_down "World" "en" "US" "7d" 10 false initial)).
Proof.
  assert (H : fallback_taken all_down "World" "en" "US" "7d" 10 false)
    by (right; split; reflexivity).
  split; [reflexivity |]. split; [exact H |]. split; [reflexivity |].
  apply (feed_failure_propagates all_down "World" "en" "US" "7d" 10 false
           (FFinite 1) initial _ eq_refl H eq_refl).
Defined.

(** X5. When the client is built, an exception of its [get_news] that is
    not an [Exception] ([KeyboardInterrupt], [SystemExit]) passes through
    the [except] clause: the adapter raises it at once, logs no warning and
    does not turn to the feed. *)
Theorem interrupt_is_not_swallowed (w : world) (q l c p : string) (m : Z)
    (sl : pyfloat) (s : state) (e : exn) :
  client_built w l c p m ->
  gnews_get_news w (mkGNews l c p m) q = Raise e ->
  is_Exception e = false ->
  fetch_news_gnews q l c p m false sl w s
  = (Raise e, emit (EvGetNews (mkGNews l c p m) q) s).
Proof.
  intros Hbuilt Hlib He.
  rewrite (fetch_news_gnews_built _ _ _ _ _ _ _ _ _ Hbuilt).
  unfold gnews_pipeline. cbn [negb].
  unfold bind at 1. unfold try_except_Exception, bind, get_news.
  rewrite Hlib, He. reflexivity.
Qed.

Definition interrupted : world :=
  mkWorld (fun _ => None)
          (fun _ _ _ => offline)
          (fun _ => Ok demo_feed)
          demo_gnews_init
          (fun _ _ => Raise KeyboardInterrupt)
          demo_clock
          (fun _ => Ok tt).

Lemma interrupt_is_not_swallowed_witness :
  client_built interrupted "en" "US" "7d" 10
  /\ gnews_get_news interrupted (mkGNews "en" "US" "7d" 10) "World"
  = Raise KeyboardInterrupt
  /\ is_Exception KeyboardInterrupt = false
  /\ fetch_news_gnews "World" "en" "US" "7d" 10 false (FFinite 0)
       interrupted initial
     = (Raise KeyboardInterrupt,
        emit (EvGetNews (mkGNews "en" "US" "7d" 10) "World") initial).
Proof.
  split; [reflexivity |]. split; [reflexivity |]. split; [reflexivity |].
  apply (interrupt_is_not_swallowed interrupted "World" "en" "US" "7d" 10
           (FFinite 0) initial KeyboardInterrupt eq_refl eq_refl eq_refl).
Defined.

Lemma bind_assoc_run {A B C : Type} (m : M A) (k : A -> M B) (h : B -> M C)
    (w : world) (s : state) :
  bind (bind m k) h w s = bind m (fun a => bind (k a) h) w s.
Proof.
  unfold bind. destruct (m w s) as [[a | e] s1]; reflexivity.
Qed.

Lemma bind_ext_run {A B : Type} (m : M A) (k k' : A -> M B) (w : world)
    (s : state) :
  (forall a s1, k a w s1 = k' a w s1) -> bind m k w s = bind m k' w s.
Proof.
  intros H. unfold bind. destruct (m w s) as [[a | e] s1]; [apply H | reflexivity].
Qed.

(** The adapter is the same call without a pause, followed by the pause. *)
Lemma fetch_news_gnews_then_pause (w : world) (q l c p : string) (m : Z)
    (ff : bool) (sl : pyfloat) (s : state) :
  fetch_news_gnews q l c p m ff sl w s
  = (recs <- fetch_news_gnews q l c p m ff (FFinite 0) ;;
     post_fetch_sleep sl ;;;
     ret recs) w s.
Proof.
  unfold fetch_news_gnews. symmetry.
  rewrite bind_assoc_run. apply bind_ext_run. intros gn s0.
  unfold gnews_pipeline.
  rewrite bind_assoc_run. apply bind_ext_run. intros raw s1.
  rewrite bind_assoc_run. apply bind_ext_run. intros raw' s2.
  rewrite bind_assoc_run. apply bind_ext_run. intros recs s3.
  reflexivity.
Qed.

(* ------------------------------------------------------------------ *)
(** ** What the keyless adapter puts on the trace *)

Lemma silent_entry_getattr (e : entry) (k : string) :
  silent (entry_getattr e k).
Proof. intros w s. unfold entry_getattr. destruct (dict_get e k); reflexivity. Qed.

Lemma silent_or_else (x : pyval) (m : M pyval) :
  silent m -> silent (or_else x m).
Proof. intros H. unfold or_else. destruct (truthy x); [apply silent_ret | exact H]. Qed.

Lemma silent_rss_record (e : entry) : silent (rss_record e).
Proof. unfold rss_record. silent. apply silent_entry_getattr. apply silent_entry_getattr. Qed.

Lemma silent_normalise_record (a : pyval) : silent (normalise_record a).
Proof.
  unfold normalise_record. silent; apply silent_or_else; silent.
  apply silent_or_else; silent.
Qed.

Lemma silent_normalise (raw : pyval) : silent (normalise raw).
Proof.
  unfold normalise. silent. apply silent_mapM, silent_normalise_record.
Qed.

Lemma fallback_trace (q l c : string) (m : Z) (w : world) (s : state) :
  trace (snd (_fallback_to_rss q l c m w s))
  = EvFeedParse (rss_url q l c) :: trace s.
Proof.
  unfold _fallback_to_rss, bind, feed_entries.
  destruct (feedparser_parse w (rss_url q l c)) as [entries | e];
    [| reflexivity].
  rewrite (silent_mapM rss_record _ silent_rss_record). reflexivity.
Qed.

(** The pause adds no event, or the one call of [time.sleep] that a truthy
    [sleep_sec] asks for. *)
Definition pause_events (sl : pyfloat) (evs : list event) : Prop :=
  evs = [] \/ (float_truthy sl = true /\ evs = [EvSleep sl]).

Lemma normalise_then_pause_trace (raw : pyval) (sl : pyfloat) (w : world)
    (s : state) :
  exists sp,
    pause_events sl sp
    /\ trace (snd ((normalised <- normalise raw ;;
                    post_fetch_sleep sl ;;; ret normalised) w s))
       = (sp ++ trace s)%list.
Proof.
  unfold bind. pose proof (silent_normalise raw w s) as Hn.
  destruct (normalise raw w s) as [[recs | e] s1]; cbn [snd] in *.
  - unfold post_fetch_sleep, sleep, ret.
    destruct (float_truthy sl) eqn:Hsl.
    + exists [EvSleep sl]. split; [right; split; [exact Hsl | reflexivity] |].
      destruct (time_sleep w sl); cbn; rewrite Hn; reflexivity.
    + exists []. split; [left; reflexivity |]. cbn. exact Hn.
  - exists []. split; [left; reflexivity |]. exact Hn.
Qed.

Lemma normalised_fallback_trace (q l c : string) (m : Z) (sl : pyfloat)
    (w : world) (s : state) :
  exists sp,
    pause_events sl sp
    /\ trace (snd (normalised_fallback q l c m sl w s))
       = (sp ++ EvFeedParse (rss_url q l c) :: trace s)%list.
Proof.
  unfold normalised_fallback. unfold bind at 1.
  pose proof (fallback_trace q l c m w s) as Hf.
  destruct (_fallback_to_rss q l c m w s) as [[fed | e] s1]; cbn [snd] in Hf.
  - destruct (normalise_then_pause_trace (PList fed) sl w s1) as (sp & Hsp & H).
    exists sp. split; [exact Hsp |]. rewrite H, Hf. reflexivity.
  - exists []. split; [left; reflexivity |]. exact Hf.
Qed.

(** When the client is built and its [get_news] returned records, the
    adapter is their normalisation and the pause. *)
Lemma fetch_news_gnews_on_library (w : world) (q l c p : string) (m : Z)
    (sl : pyfloat) (s : state) (raw : pyval) :
  client_built w l c p m ->
  gnews_get_news w (mkGNews l c p m) q = Ok raw ->
  truthy raw = true ->
  fetch_news_gnews q l c p m false sl w s
  = (normalised <- normalise raw ;; post_fetch_sleep sl ;;; ret normalised) w
      (emit (EvGetNews (mkGNews l c p m) q) s).
Proof.
  intros Hbuilt Hlib Hraw.
  rewrite (fetch_news_gnews_built _ _ _ _ _ _ _ _ _ Hbuilt).
  unfold gnews_pipeline. cbn [negb orb].
  unfold bind at 1. unfold try_except_Exception, bind at 1. unfold get_news.
  rewrite Hlib. cbn [ret]. rewrite Hraw.
  unfold bind at 1. rewrite Hraw. reflexivity.
Qed.

(** The events one call adds once the client is built: the library call
    (with the warning if it raised) unless forced, the feed request if the
    fallback is taken, the pause. *)
Definition keyless_events (q l c p : string) (m : Z) (ff : bool)
    (sl : pyfloat) (sp fp lp : list event) : Prop :=
  pause_events sl sp
  /\ (fp = [] \/ fp = [EvFeedParse (rss_url q l c)])
  /\ (lp = [] \/ lp = [EvGetNews (mkGNews l c p m) q]
      \/ exists e, lp = [EvLogWarning gnews_warning e;
                         EvGetNews (mkGNews l c p m) q])
  /\ (ff = true -> lp = [] /\ fp = [EvFeedParse (rss_url q l c)])
  /\ (ff = false -> lp <> []).

Lemma fetch_news_gnews_trace (w : world) (q l c p : string) (m : Z)
    (ff : bool) (sl : pyfloat) (s : state) :
  client_built w l c p m ->
  exists sp fp lp,
    trace (snd (fetch_news_gnews q l c p m ff sl w s))
    = (sp ++ fp ++ lp ++ trace s)%list
    /\ keyless_events q l c p m ff sl sp fp lp.
Proof.
  intros Hbuilt. unfold keyless_events. destruct ff.
  - rewrite (fetch_news_gnews_on_fallback w q l c p m true sl s Hbuilt)
      by (left; reflexivity).
    destruct (normalised_fallback_trace q l c m sl w s) as (sp & Hsp & H).
    exists sp, [EvFeedParse (rss_url q l c)], [].
    cbn [fallback_start] in H |- *. rewrite H.
    repeat split; auto; discriminate.
  - destruct (gnews_get_news w (mkGNews l c p m) q) as [raw | e] eqn:Hlib.
    + destruct (truthy raw) eqn:Hraw.
      * rewrite (fetch_news_gnews_on_library w q l c p m sl s raw
                   Hbuilt Hlib Hraw).
        destruct (normalise_then_pause_trace raw sl w
                    (emit (EvGetNews (mkGNews l c p m) q) s))
          as (sp & Hsp & H).
        exists sp, [], [EvGetNews (mkGNews l c p m) q]. rewrite H.
        repeat split; auto; discriminate.
      * rewrite (fetch_news_gnews_on_fallback w q l c p m false sl s Hbuilt)
          by (right; split; [reflexivity |];
              unfold library_gave_nothing; rewrite Hlib; exact Hraw).
        unfold fallback_start, after_library_attempt. rewrite Hlib.
        destruct (normalised_fallback_trace q l c m sl w
                    (emit (EvGetNews (mkGNews l c p m) q) s))
          as (sp & Hsp & H).
        exists sp, [EvFeedParse (rss_url q l c)],
          [EvGetNews (mkGNews l c p m) q]. rewrite H.
        repeat split; auto; discriminate.
    + destruct (is_Exception e) eqn:He.
      * rewrite (fetch_news_gnews_on_fallback w q l c p m false sl s Hbuilt)
          by (right; split; [reflexivity |];
              unfold library_gave_nothing; rewrite Hlib; exact He).
        unfold fallback_start, after_library_attempt. rewrite Hlib.
        destruct (normalised_fallback_trace q l c m sl w
                    (emit (EvLogWarning gnews_warning e)
                       (emit (EvGetNews (mkGNews l c p m) q) s)))
          as (sp & Hsp & H).
        exists sp, [EvFeedParse (rss_url q l c)],
          [EvLogWarning gnews_warning e; EvGetNews (mkGNews l c p m) q].
        rewrite H.
        repeat split; eauto; discriminate.
      * exists [], [], [EvGetNews (mkGNews l c p m) q].
        rewrite (fetch_news_gnews_built _ _ _ _ _ _ _ _ _ Hbuilt).
        unfold gnews_pipeline. cbn [negb].
        unfold bind at 1. unfold try_except_Exception, bind, get_news.
        rewrite Hlib, He.
        repeat split; auto; try discriminate. left. reflexivity.
Qed.

(** The number of calls of [time.sleep] on a trace. *)
Definition is_sleep (ev : event) : bool :=
  match ev with
  | EvSleep _ => true
  | _ => false
  end.

Definition sleeps (tr : list event) : nat :=
  List.length (filter is_sleep tr).

Lemma sleeps_app (a b : list event) :
  sleeps (a ++ b) = sleeps a + sleeps b.
Proof. unfold sleeps. rewrite filter_app, length_app. reflexivity. Qed.

(** A call whose [sleep_sec] is falsy never calls [time.sleep]. *)
Lemma falsy_delay_never_sleeps (w : world) (q l c p : string) (m : Z)
    (ff : bool) (sl : pyfloat) (s : state) :
  float_truthy sl = false ->
  sleeps (trace (snd (fetch_news_gnews q l c p m ff sl w s)))
  = sleeps (trace s).
Proof.
  intros Hsl.
  destruct (gnews_init w (mkGNews l c p m)) as [[] | e] eqn:Hinit.
  - destruct (fetch_news_gnews_trace w q l c p m ff sl s Hinit)
      as (sp & fp & lp & H & Hsp & Hfp & Hlp & _).
    rewrite H, !sleeps_app.
    destruct Hsp as [-> | [Ht _]]; [| congruence].
    destruct Hfp as [-> | ->];
      destruct Hlp as [-> | [-> | (e & ->)]]; reflexivity.
  - rewrite (fetch_news_gnews_rejected w q l c p m ff sl s e Hinit).
    reflexivity.
Qed.

(** X6. The pause is the last step and nothing else depends on it.  A call
    with a falsy [sleep_sec] ([0.0]) is the call without a pause, and it
    never calls [time.sleep].  With a truthy [sleep_sec], [time.sleep] is
    called exactly once, after the call without a pause has returned: when
    it raises (as [time.sleep] does for a negative delay) the records
    already fetched are lost and the call raises.  When the fetch itself
    failed there is no pause. *)
Theorem pause_is_the_last_step (w : world) (q l c p : string) (m : Z)
    (ff : bool) (sl : pyfloat) (s : state) :
  sleeps (trace (snd (fetch_news_gnews q l c p m ff (FFinite 0) w s)))
  = sleeps (trace s)
  /\ (float_truthy sl = false ->
      fetch_news_gnews q l c p m ff sl w s
      = fetch_news_gnews q l c p m ff (FFinite 0) w s)
  /\ (forall recs s2,
        float_truthy sl = true ->
        fetch_news_gnews q l c p m ff (FFinite 0) w s = (Ok recs, s2) ->
        fetch_news_gnews q l c p m ff sl w s
        = (match time_sleep w sl with
           | Ok _ => Ok recs
           | Raise e => Raise e
           end, emit (EvSleep sl) s2)
        /\ sleeps (trace (snd (fetch_news_gnews q l c p m ff sl w s)))
           = S (sleeps (trace s)))
  /\ (forall e s2,
        fetch_news_gnews q l c p m ff (FFinite 0) w s = (Raise e, s2) ->
        fetch_news_gnews q l c p m ff sl w s = (Raise e, s2)).
Proof.
  pose proof (falsy_delay_never_sleeps w q l c p m ff (FFinite 0) s eq_refl)
    as Hnone.
  split; [exact Hnone |].
  rewrite (fetch_news_gnews_then_pause w q l c p m ff sl s).
  unfold bind, post_fetch_sleep, sleep, ret.
  split; [| split].
  - intros Hsl. rewrite Hsl.
    destruct (fetch_news_gnews q l c p m ff (FFinite 0) w s) as [[recs | e] s2];
      reflexivity.
  - intros recs s2 Hsl Hrun. rewrite Hrun in Hnone |- *. rewrite Hsl.
    cbn [snd] in Hnone.
    split.
    + destruct (time_sleep w sl) as [[] | e]; reflexivity.
    + destruct (time_sleep w sl) as [[] | e]; cbn [snd emit trace];
        unfold sleeps in *; cbn [filter is_sleep List.length];
        rewrite Hnone; reflexivity.
  - intros e s2 Hrun. rewrite Hrun. reflexivity.
Qed.

(** A host on which [time.sleep] rejects every delay. *)
Definition no_sleep : world :=
  with_sleep (fun _ => Raise (ValueError "sleep length must be non-negative"))
    library_up.

Lemma pause_is_the_last_step_witness :
  (float_truthy (FFinite (0 # 5)) = false
   /\ fetch_news_gnews "World" "en" "US" "7d" 10 false (FFinite (0 # 5))
        no_sleep initial
      = fetch_news_gnews "World" "en" "US" "7d" 10 false (FFinite 0) no_sleep
          initial)
  /\ (float_truthy (FFinite (-1)) = true
      /\ exists recs s2,
           fetch_news_gnews "World" "en" "US" "7d" 10 false (FFinite 0)
             no_sleep initial = (Ok recs, s2)
           /\ fetch_news_gnews "World" "en" "US" "7d" 10 false (FFinite (-1))
                no_sleep initial
              = (Raise (ValueError "sleep length must be non-negative"),
                 emit (EvSleep (FFinite (-1))) s2))
  /\ (fetch_news_gnews "World" "en" "US" "7d" 10 false (FFinite 0) interrupted
        initial
      = (Raise KeyboardInterrupt,
         emit (EvGetNews (mkGNews "en" "US" "7d" 10) "World") initial)
      /\ fetch_news_gnews "World" "en" "US" "7d" 10 false (FFinite 1)
           interrupted initial
         = (Raise KeyboardInterrupt,
            emit (EvGetNews (mkGNews "en" "US" "7d" 10) "World") initial)).
Proof.
  split; [| split].
  - split; [reflexivity |].
    apply (proj1 (proj2 (pause_is_the_last_step no_sleep "World" "en" "US"
                           "7d" 10 false (FFinite (0 # 5)) initial))).
    reflexivity.
  - split; [reflexivity |]. eexists. eexists. split; [reflexivity |].
    apply (proj1 (proj2 (proj2 (pause_is_the_last_step no_sleep "World" "en"
                                  "US" "7d" 10 false (FFinite (-1)) initial)))
             _ _ eq_refl eq_refl).
  - split; [reflexivity |].
    apply (proj2 (proj2 (proj2 (pause_is_the_last_step interrupted "World"
                                  "en" "US" "7d" 10 false (FFinite 1)
                                  initial))) _ _ eq_refl).
Defined.

(** X7. When the client is built and its [get_news] returns records, the
    keyless adapter normalises them and does not turn to the feed: the
    outcome is the same whatever the feed parser would answer. *)
Theorem library_records_bypass_the_feed (w : world) (q l c p : string)
    (m : Z) (sl : pyfloat) (s : state) (raw : pyval) :
  client_built w l c p m ->
  gnews_get_news w (mkGNews l c p m) q = Ok raw ->
  truthy raw = true ->
  fetch_news_gnews q l c p m false sl w s
  = (normalised <- normalise raw ;; post_fetch_sleep sl ;;; ret normalised) w
      (emit (EvGetNews (mkGNews l c p m) q) s)
  /\ forall feed,
       fetch_news_gnews q l c p m false sl (with_feed feed w) s
       = fetch_news_gnews q l c p m false sl w s.
Proof.
  intros Hbuilt Hlib Hraw.
  split; [apply fetch_news_gnews_on_library; assumption |].
  intros feed.
  rewrite (fetch_news_gnews_on_library w q l c p m sl s raw Hbuilt Hlib Hraw).
  rewrite (fetch_news_gnews_on_library (with_feed feed w) q l c p m sl s raw
             Hbuilt Hlib Hraw).
  assert (Hw : same_clock (with_feed feed w) w) by reflexivity.
  unfold bind. rewrite (clock_only_normalise raw _ _ Hw).
  destruct (normalise raw w _) as [[recs | e] s1]; [| reflexivity].
  unfold post_fetch_sleep, sleep. cbn [time_sleep with_feed].
  destruct (float_truthy sl); reflexivity.
Qed.

Lemma library_records_bypass_the_feed_witness :
  client_built library_up "en" "US" "7d" 10
  /\ gnews_get_news library_up (mkGNews "en" "US" "7d" 10) "World"
     = Ok library_records
  /\ truthy library_records = true
  /\ fetch_news_gnews "World" "en" "US" "7d" 10 false (FFinite 0)
       (with_feed (fun _ => Raise (LibraryError "URLError" "unreachable"))
          library_up) initial
     = fetch_news_gnews "World" "en" "US" "7d" 10 false (FFinite 0)
         library_up initial.
Proof.
  split; [reflexivity |]. split; [reflexivity |]. split; [reflexivity |].
  apply (proj2 (library_records_bypass_the_feed library_up "World" "en" "US"
                  "7d" 10 (FFinite 0) initial library_records
                  eq_refl eq_refl eq_refl)).
Defined.



(* ------------------------------------------------------------------ *)
(** ** What normalisation does to the feed's records *)

(** The record with a falsy source or published_at replaced by null. *)
Definition renormalised (r : pyval) : pyval :=
  match r with
  | PDict d =>
      PDict (map (fun kv =>
                    if (fst kv =? "source") || (fst kv =? "published_at")
                    then (fst kv, py_or (snd kv) PNone)
                    else kv) d)
  | _ => r
  end.

Lemma normalise_rss_record (e : entry) (w : world) (s s' : state) (r : pyval) :
  (forall i, utcnow_isoformat w i <> "") ->
  rss_record e w s = (Ok r, s') ->
  forall s2, normalise_record r w s2 = (Ok (renormalised r), s2).
Proof.
  intros Hne H s2. apply rss_record_Ok in H.
  destruct H as (sd & t & u & _ & _ & _ & -> & _).
  assert (Hstamp : truthy (PStr (utcnow_isoformat w (clock_reads s))) = true)
    by (cbn [truthy]; apply negb_true_iff, String.eqb_neq, Hne).
  erewrite normalise_record_dict; [| reflexivity | reflexivity].
  unfold normalised_of, renormalised, dict_get_or.
  cbn [dict_get map fst snd String.eqb Ascii.eqb Bool.eqb orb].
  unfold py_or. rewrite Hstamp. cbn [truthy]. reflexivity.
Qed.

Lemma normalise_rss_loop (w : world) (es : list entry) :
  (forall i, utcnow_isoformat w i <> "") ->
  forall s recs s',
    mapM rss_record es w s = (Ok recs, s') ->
    forall s2,
      mapM normalise_record recs w s2 = (Ok (map renormalised recs), s2).
Proof.
  intros Hne. induction es as [| e es IH]; intros s recs s' H s2.
  - cbn in H. unfold ret in H. inversion H; subst. reflexivity.
  - apply mapM_cons_Ok in H. destruct H as (r & rs & s1 & Hr & Hrs & ->).
    cbn [mapM map]. unfold bind, ret.
    rewrite (normalise_rss_record e w s s1 r Hne Hr s2).
    rewrite (IH _ _ _ Hrs s2). reflexivity.
Qed.

(** X9. Once the client is built, on the fallback path normalisation leaves the feed adapter's
    records as they are, stamps included, except that a falsy source or
    published_at (such as the empty-string source of an entry without one)
    becomes null; the clock is not read again.  So the list returned is the
    feed adapter's list with that one change, provided the pause does not
    fail. *)
Theorem fallback_records_renormalised (w : world) (q l c p : string) (m : Z)
    (ff : bool) (sl : pyfloat) (s s1 s' : state) (fed : list pyval) :
  (forall i, utcnow_isoformat w i <> "") ->
  client_built w l c p m ->
  fallback_taken w q l c p m ff ->
  _fallback_to_rss q l c m w (fallback_start w q l c p m ff s) = (Ok fed, s1) ->
  post_fetch_sleep sl w s1 = (Ok tt, s') ->
  fetch_news_gnews q l c p m ff sl w s = (Ok (map renormalised fed), s').
Proof.
  intros Hne Hbuilt Hfb Hfeed Hsleep.
  rewrite (fetch_news_gnews_on_fallback _ _ _ _ _ _ _ _ _ Hbuilt Hfb).
  unfold normalised_fallback. unfold bind at 1. rewrite Hfeed.
  apply _fallback_to_rss_Ok in Hfeed. destruct Hfeed as (entries & _ & Hloop).
  unfold bind at 1. unfold normalise, bind at 1. cbn [py_iter ret].
  rewrite (normalise_rss_loop w _ Hne _ _ _ Hloop s1).
  unfold bind. rewrite Hsleep. reflexivity.
Qed.

Lemma fallback_records_renormalised_witness :
  (forall i, utcnow_isoformat library_down i <> "")
  /\ client_built library_down "en" "US" "7d" 10
  /\ fallback_taken library_down "World" "en" "US" "7d" 10 false
  /\ exists fed s1,
       _fallback_to_rss "World" "en" "US" 10 library_down
         (fallback_start library_down "World" "en" "US" "7d" 10 false initial)
       = (Ok fed, s1)
       /\ post_fetch_sleep (FFinite 0) library_down s1 = (Ok tt, s1)
       /\ fetch_news_gnews "World" "en" "US" "7d" 10 false (FFinite 0)
            library_down initial = (Ok (map renormalised fed), s1).
Proof.
  assert (Hfb : fallback_taken library_down "World" "en" "US" "7d" 10 false)
    by (right; split; reflexivity).
  split; [exact demo_clock_nonempty |]. split; [reflexivity |].
  split; [exact Hfb |].
  eexists. eexists. split; [reflexivity |]. split; [reflexivity |].
  apply (fallback_records_renormalised library_down "World" "en" "US" "7d" 10
           false (FFinite 0) initial _ _ _ demo_clock_nonempty eq_refl Hfb
           eq_refl eq_refl).
Defined.

(* ------------------------------------------------------------------ *)
(** ** When the library path returns, and what *)

(** A raw record normalisation accepts: a dict with a title and a url. *)
Definition well_formed_raw (a : pyval) : Prop :=
  exists d t u,
    a = PDict d /\ dict_get d "title" = Some t /\ dict_get d "url" = Some u.

(** How a raw record of the library shows in its normalised record. *)
Definition library_mapping (a r : pyval) : Prop :=
  exists d,
    a = PDict d
    /\ field r "title" = dict_get d "title"
    /\ field r "url" = dict_get d "url"
    /\ field r "source"
       = Some (py_or (dict_get_or d "source" PNone)
                     (dict_get_or d "publisher" PNone))
    /\ field r "description" = Some (dict_get_or d "description" (PStr ""))
    /\ field r "image" = Some (dict_get_or d "image" PNone).

Lemma normalise_record_mapping (a : pyval) (w : world) (s : state)
    (r : pyval) (s' : state) :
  normalise_record a w s = (Ok r, s') -> library_mapping a r.
Proof.
  intros H. apply normalise_record_Ok_shape in H.
  destruct H as (d & t & u & -> & Ht & Hu & -> & _).
  exists d. unfold normalised_of.
  cbn [field dict_get String.eqb Ascii.eqb Bool.eqb].
  repeat split; auto.
Qed.

Lemma normalise_loop_succeeds (w : world) (items : list pyval) :
  Forall well_formed_raw items ->
  forall s, exists recs s', mapM normalise_record items w s = (Ok recs, s').
Proof.
  induction 1 as [| a items (d & t & u & -> & Ht & Hu) _ IH]; intros s.
  - exists [], s. reflexivity.
  - cbn [mapM]. unfold bind, ret.
    rewrite (normalise_record_dict d t u w s Ht Hu).
    destruct (IH (if truthy (dict_get_or d "fetched_at" PNone)
                  then s else tick s)) as (rs & s' & Hrs).
    rewrite Hrs. eauto.
Qed.

Lemma normalise_loop_Ok_well_formed (w : world) (items : list pyval)
    (s s' : state) (recs : list pyval) :
  mapM normalise_record items w s = (Ok recs, s') ->
  Forall well_formed_raw items.
Proof.
  intros H.
  apply (mapM_Ok_Forall2 normalise_record (fun a _ => well_formed_raw a)) in H.
  - induction H; constructor; auto.
  - intros a w0 s0 r s0' Hr. eapply normalise_record_Ok, Hr.
Qed.

(** The pause cannot fail: there is none, or [time.sleep] accepts it. *)
Definition pause_succeeds (w : world) (sl : pyfloat) : Prop :=
  float_truthy sl = false \/ time_sleep w sl = Ok tt.

Lemma pause_succeeds_run (w : world) (sl : pyfloat) (s : state) :
  pause_succeeds w sl -> exists s', post_fetch_sleep sl w s = (Ok tt, s').
Proof.
  unfold pause_succeeds, post_fetch_sleep, sleep, ret.
  intros [H | H].
  - rewrite H. eauto.
  - destruct (float_truthy sl); [rewrite H |]; eauto.
Qed.

(** X10. When the client is built, its [get_news] returns a non-empty
    list and the pause cannot fail, the keyless adapter returns if and only
    if every record of that
    list is a dict holding a title and a url.  It then returns one record
    per library record, in order: title, url and image as they are, the
    description defaulting to the empty string when the key is absent, and
    the source taken from [source], or from [publisher] when [source] is
    falsy. *)
Theorem library_path_returns_iff_well_formed (w : world) (q l c p : string)
    (m : Z) (sl : pyfloat) (s : state) (items : list pyval) :
  client_built w l c p m ->
  gnews_get_news w (mkGNews l c p m) q = Ok (PList items) ->
  items <> [] ->
  pause_succeeds w sl ->
  ((exists recs s', fetch_news_gnews q l c p m false sl w s = (Ok recs, s'))
   <-> Forall well_formed_raw items)
  /\ (forall recs s',
         fetch_news_gnews q l c p m false sl w s = (Ok recs, s') ->
         Forall2 library_mapping items recs).
Proof.
  intros Hbuilt Hlib Hne Hpause.
  assert (Hraw : truthy (PList items) = true)
    by (destruct items; [contradiction | reflexivity]).
  rewrite (fetch_news_gnews_on_library w q l c p m sl s _ Hbuilt Hlib Hraw).
  unfold normalise. cbn [py_iter]. unfold bind at 2. cbn [ret].
  set (s0 := emit (EvGetNews (mkGNews l c p m) q) s).
  split; [split |].
  - intros (recs & s' & H). apply bind_Ok in H.
    destruct H as (rs & s1 & H & _).
    eapply normalise_loop_Ok_well_formed, H.
  - intros Hwf.
    destruct (normalise_loop_succeeds w items Hwf s0) as (recs & s1 & H).
    destruct (pause_succeeds_run w sl s1 Hpause) as (s' & Hs).
    exists recs, s'. unfold bind. rewrite H, Hs. reflexivity.
  - intros recs s' H. apply bind_Ok in H. destruct H as (rs & s1 & H & H').
    apply bind_Ok in H'. destruct H' as ([] & s2 & _ & H').
    apply ret_Ok in H'. destruct H' as [-> _].
    revert H. apply mapM_Ok_Forall2. apply normalise_record_mapping.
Qed.

Lemma library_path_returns_iff_well_formed_witness :
  client_built library_up "en" "US" "7d" 10
  /\ gnews_get_news library_up (mkGNews "en" "US" "7d" 10) "World"
  = Ok library_records
  /\ pause_succeeds library_up (FFinite 1)
  /\ exists recs s',
       fetch_news_gnews "World" "en" "US" "7d" 10 false (FFinite 1)
         library_up initial = (Ok recs, s')
       /\ List.length recs = 2.
Proof.
  assert (Hp : pause_succeeds library_up (FFinite 1)) by (right; reflexivity).
  split; [reflexivity |]. split; [reflexivity |]. split; [exact Hp |].
  destruct (library_path_returns_iff_well_formed library_up "World" "en" "US"
              "7d" 10 (FFinite 1) initial _ eq_refl eq_refl
              ltac:(discriminate) Hp) as [[_ Hreturns] Hmap].
  assert (Hwf : Forall well_formed_raw
                  [ PDict [ ("title", PStr "Launch day");
                            ("description", PStr "Rocket lifts off");
                            ("published date",
                              PStr "Tue, 31 Dec 2024 08:00:00 GMT");
                            ("url", PStr "https://example.com/a");
                            ("publisher",
                              PDict [("href", PStr "https://example.com");
                                     ("title", PStr "Example Times")]) ];
                    PDict [ ("title", PStr "Rain ahead");
                            ("url", PStr "https://example.com/b");
                            ("publisher", PStr "Weather Desk") ] ]).
  { repeat constructor; do 3 eexists; repeat split; reflexivity. }
  destruct (Hreturns Hwf) as (recs & s' & H).
  exists recs, s'. split; [exact H |].
  apply Hmap in H. apply Forall2_length in H. symmetry. exact H.
Defined.

(* ------------------------------------------------------------------ *)
(** ** The keyed adapter: failures, success, mapping *)

(** Line 29: the key the adapter goes on with. *)
Definition resolved_key (api_key : option string) (w : world) : option string :=
  if str_truthy api_key then api_key else os_getenv w "NEWSAPI_KEY".

(** The state once the key is resolved: the environment was looked up only
    if the explicit key was falsy. *)
Definition after_key_lookup (api_key : option string) (s : state) : state :=
  if str_truthy api_key then s else emit (EvGetenv "NEWSAPI_KEY") s.

Lemma fetch_news_newsapi_resolved (api_key : option string) (key q l : string)
    (ps : Z) (w : world) (s : state) :
  resolved_key api_key w = Some key ->
  key <> "" ->
  fetch_news_newsapi api_key q l ps w s
  = newsapi_request key q l ps w (after_key_lookup api_key s).
Proof.
  unfold resolved_key, after_key_lookup, fetch_news_newsapi, bind, getenv, ret.
  intros Hres Hkey. apply String.eqb_neq in Hkey.
  destruct (str_truthy api_key); rewrite Hres, Hkey; reflexivity.
Qed.

(** What can go wrong between the request and the decoded body. *)
Definition upstream_failure (w : world) (key q l : string) (ps : Z) (e : exn)
    : Prop :=
  match requests_get w newsapi_url (newsapi_params q l ps key) 10 with
  | Raise e' => e' = e
  | Ok resp =>
      match raise_for_status resp with
      | Raise e' => e' = e
      | Ok _ => json resp = Raise e
      end
  end.

(** X11. In the keyed adapter a failure of the request, a failing status
    ([raise_for_status]) and a body that does not decode all reach the
    caller as they are: the adapter raises that error after its one
    request, reads no clock and turns to no other backend. *)
Theorem keyed_failure_propagates (api_key : option string) (key q l : string)
    (ps : Z) (w : world) (s : state) (e : exn) :
  resolved_key api_key w = Some key ->
  key <> "" ->
  upstream_failure w key q l ps e ->
  fetch_news_newsapi api_key q l ps w s
  = (Raise e,
     emit (EvHttpGet newsapi_url (newsapi_params q l ps key) 10)
       (after_key_lookup api_key s)).
Proof.
  intros Hres Hkey Hfail.
  rewrite (fetch_news_newsapi_resolved api_key key q l ps w s Hres Hkey).
  unfold upstream_failure in Hfail.
  unfold newsapi_request, bind, http_get, lift.
  destruct (requests_get w newsapi_url (newsapi_params q l ps key) 10)
    as [resp | e']; [| subst; reflexivity].
  destruct (raise_for_status resp) as [[] | e']; [| subst; reflexivity].
  rewrite Hfail. reflexivity.
Qed.

(** The search API answers 401. *)
Definition newsapi_unauthorised : world :=
  mkWorld (fun name => if name =? "NEWSAPI_KEY" then Some "secret" else None)
          (fun _ _ _ =>
             Ok (mkResponse
                   (Raise (LibraryError "HTTPError" "401 Client Error"))
                   (Ok (PDict [("status", PStr "error")]))))
          (fun _ => Ok demo_feed)
          demo_gnews_init
          (fun _ _ => Ok library_records)
          demo_clock
          (fun _ => Ok tt).

Lemma keyed_failure_propagates_witness :
  resolved_key None newsapi_unauthorised = Some "secret"
  /\ "secret" <> ""
  /\ upstream_failure newsapi_unauthorised "secret" "World" "en" 20
       (LibraryError "HTTPError" "401 Client Error")
  /\ fetch_news_newsapi None "World" "en" 20 newsapi_unauthorised initial
     = (Raise (LibraryError "HTTPError" "401 Client Error"),
        emit (EvHttpGet newsapi_url (newsapi_params "World" "en" 20 "secret")
                10)
          (after_key_lookup None initial)).
Proof.
  assert (Hne : "secret" <> "") by discriminate.
  split; [reflexivity |]. split; [exact Hne |]. split; [reflexivity |].
  apply (keyed_failure_propagates None "secret" "World" "en" 20
           newsapi_unauthorised initial _ eq_refl Hne eq_refl).
Defined.

(** An article the keyed adapter can map: it has the six fields, and its
    source has a name. *)
Definition well_formed_article (a : pyval) : Prop :=
  exists src name t desc u img pub,
    field a "source" = Some src /\ field src "name" = Some name
    /\ field a "title" = Some t /\ field a "description" = Some desc
    /\ field a "url" = Some u /\ field a "urlToImage" = Some img
    /\ field a "publishedAt" = Some pub.

(** How an article shows in its record. *)
Definition newsapi_mapping (a r : pyval) : Prop :=
  (exists src, field a "source" = Some src
               /\ field r "source" = field src "name")
  /\ field r "title" = field a "title"
  /\ field r "description" = field a "description"
  /\ field r "url" = field a "url"
  /\ field r "image" = field a "urlToImage"
  /\ field r "published_at" = field a "publishedAt".

Lemma newsapi_record_mapping (a : pyval) (w : world) (s : state) (r : pyval)
    (s' : state) :
  newsapi_record a w s = (Ok r, s') -> newsapi_mapping a r.
Proof.
  intros H. apply newsapi_record_Ok in H.
  destruct H as (src & name & t & desc & u & img & pub & H).
  destruct H as (Hs & Hn & Ht & Hd & Hu & Hi & Hp & -> & _).
  unfold newsapi_mapping. cbn [field dict_get String.eqb Ascii.eqb Bool.eqb].
  repeat split; auto. exists src. auto.
Qed.

Lemma newsapi_record_Ok_well_formed (a : pyval) (w : world) (s s' : state)
    (r : pyval) :
  newsapi_record a w s = (Ok r, s') -> well_formed_article a.
Proof.
  intros H. apply newsapi_record_Ok in H.
  destruct H as (src & name & t & desc & u & img & pub & H).
  exists src, name, t, desc, u, img, pub. tauto.
Qed.

Lemma field_getitem (a : pyval) (k : string) (v : pyval) (w : world)
    (s : state) :
  field a k = Some v -> py_getitem a k w s = (Ok v, s).
Proof.
  destruct a as [| | | | | | d]; try discriminate.
  cbn [field py_getitem]. intros ->. reflexivity.
Qed.

Lemma newsapi_record_succeeds (a : pyval) (w : world) (s : state) :
  well_formed_article a -> exists r, newsapi_record a w s = (Ok r, tick s).
Proof.
  intros (src & name & t & desc & u & img & pub & H).
  destruct H as (Hs & Hn & Ht & Hd & Hu & Hi & Hp).
  unfold newsapi_record, bind.
  rewrite (field_getitem _ _ _ w s Hs), (field_getitem _ _ _ w s Hn),
    (field_getitem _ _ _ w s Ht), (field_getitem _ _ _ w s Hd),
    (field_getitem _ _ _ w s Hu), (field_getitem _ _ _ w s Hi),
    (field_getitem _ _ _ w s Hp).
  eexists. reflexivity.
Qed.

Lemma newsapi_loop_succeeds (w : world) (items : list pyval) :
  Forall well_formed_article items ->
  forall s, exists recs,
    mapM newsapi_record items w s
    = (Ok recs, mkState (clock_reads s + List.length items) (trace s)).
Proof.
  induction 1 as [| a items Ha _ IH]; intros s.
  - exists []. cbn. unfold ret. destruct s. cbn. f_equal. f_equal. lia.
  - destruct (newsapi_record_succeeds a w s Ha) as (r & Hr).
    destruct (IH (tick s)) as (rs & Hrs).
    exists (r :: rs). cbn [mapM]. unfold bind, ret. rewrite Hr, Hrs.
    cbn [tick clock_reads trace List.length]. do 2 f_equal. lia.
Qed.

Lemma newsapi_loop_Ok_well_formed (w : world) (items : list pyval)
    (s s' : state) (recs : list pyval) :
  mapM newsapi_record items w s = (Ok recs, s') ->
  Forall well_formed_article items.
Proof.
  intros H.
  apply (mapM_Ok_Forall2 newsapi_record (fun a _ => well_formed_article a)) in H.
  - induction H; constructor; auto.
  - intros a w0 s0 r s0' Hr. eapply newsapi_record_Ok_well_formed, Hr.
Qed.

Lemma newsapi_loop_stamps (w : world) (items : list pyval) :
  forall s recs s',
    mapM newsapi_record items w s = (Ok recs, s') ->
    fetched_ats recs = readings w (clock_reads s) (List.length recs).
Proof.
  induction items as [| a items IH]; intros s recs s' H.
  - cbn in H. unfold ret in H. inversion H; subst. reflexivity.
  - apply mapM_cons_Ok in H. destruct H as (r & rs & s1 & Hr & Hrs & ->).
    apply newsapi_record_Ok in Hr.
    destruct Hr as (src & name & t & desc & u & img & pub & Hr).
    destruct Hr as (_ & _ & _ & _ & _ & _ & _ & -> & ->).
    apply IH in Hrs. cbn [tick clock_reads] in Hrs.
    unfold readings. cbn [List.length seq map fetched_ats].
    f_equal. exact Hrs.
Qed.

(** The response came back good and its body lists [items]; a body
    without an articles key lists nothing. *)
Definition answered_with (w : world) (key q l : string) (ps : Z)
    (items : list pyval) : Prop :=
  exists resp d,
    requests_get w newsapi_url (newsapi_params q l ps key) 10 = Ok resp
    /\ raise_for_status resp = Ok tt
    /\ json resp = Ok (PDict d)
    /\ dict_get_or d "articles" (PList []) = PList items.

Lemma newsapi_request_answered (w : world) (key q l : string) (ps : Z)
    (items : list pyval) (s : state) :
  answered_with w key q l ps items ->
  newsapi_request key q l ps w s
  = mapM newsapi_record items w
      (emit (EvHttpGet newsapi_url (newsapi_params q l ps key) 10) s).
Proof.
  intros (resp & d & Hreq & Hst & Hjs & Harts).
  unfold newsapi_request, bind at 1. unfold http_get. rewrite Hreq.
  unfold bind at 1. unfold lift at 1. rewrite Hst.
  unfold bind at 1. unfold lift. rewrite Hjs.
  unfold bind at 1. cbn [py_get ret]. rewrite Harts.
  unfold bind. cbn [py_iter ret].
  destruct (mapM newsapi_record items w _) as [[recs | e] s1]; reflexivity.
Qed.

(** X12. Once the search API has answered with a good status and a body
    listing [items] (nothing, when the body has no articles key), the keyed
    adapter returns if and only if every article is well formed.  It then
    returns one record per article, in order, mapped field by field, each
    stamped with a clock reading of its own, and has made exactly the one
    request. *)
Theorem keyed_returns_iff_well_formed (api_key : option string)
    (key q l : string) (ps : Z) (w : world) (s : state) (items : list pyval) :
  resolved_key api_key w = Some key ->
  key <> "" ->
  answered_with w key q l ps items ->
  ((exists recs s', fetch_news_newsapi api_key q l ps w s = (Ok recs, s'))
   <-> Forall well_formed_article items)
  /\ (forall recs s',
         fetch_news_newsapi api_key q l ps w s = (Ok recs, s') ->
         Forall2 newsapi_mapping items recs
         /\ fetched_ats recs = readings w (clock_reads s) (List.length items)
         /\ s' = mkState (clock_reads s + List.length items)
                   (EvHttpGet newsapi_url (newsapi_params q l ps key) 10
                      :: trace (after_key_lookup api_key s))).
Proof.
  intros Hres Hkey Hans.
  rewrite (fetch_news_newsapi_resolved api_key key q l ps w s Hres Hkey).
  rewrite (newsapi_request_answered w key q l ps items _ Hans).
  set (s0 := emit _ (after_key_lookup api_key s)).
  assert (Hclock : clock_reads s0 = clock_reads s)
    by (unfold s0, after_key_lookup; destruct (str_truthy api_key); reflexivity).
  split; [split |].
  - intros (recs & s' & H). eapply newsapi_loop_Ok_well_formed, H.
  - intros Hwf. destruct (newsapi_loop_succeeds w items Hwf s0) as (recs & H).
    exists recs. eexists. exact H.
  - intros recs s' H.
    pose proof (mapM_Ok_length _ _ _ _ _ _ H) as Hlen.
    pose proof (newsapi_loop_Ok_well_formed _ _ _ _ _ H) as Hwf.
    pose proof (newsapi_loop_stamps _ _ _ _ _ H) as Hstamps.
    split; [| split].
    + revert H. apply mapM_Ok_Forall2. apply newsapi_record_mapping.
    + rewrite Hstamps, Hlen, Hclock. reflexivity.
    + destruct (newsapi_loop_succeeds w items Hwf s0) as (recs' & H').
      rewrite H' in H. inversion H.
      unfold s0, after_key_lookup.
      destruct (str_truthy api_key); reflexivity.
Qed.

Lemma keyed_returns_iff_well_formed_witness :
  resolved_key None (newsapi_serving [wire_article]) = Some "secret"
  /\ "secret" <> ""
  /\ answered_with (newsapi_serving [wire_article]) "secret" "World" "en" 20
       [wire_article]
  /\ exists recs s',
       fetch_news_newsapi None "World" "en" 20
         (newsapi_serving [wire_article]) initial = (Ok recs, s')
       /\ Forall2 newsapi_mapping [wire_article] recs
       /\ fetched_ats recs
          = readings (newsapi_serving [wire_article]) 0 1.
Proof.
  assert (Hne : "secret" <> "") by discriminate.
  assert (Hans : answered_with (newsapi_serving [wire_article]) "secret"
                   "World" "en" 20 [wire_article]).
  { eexists. eexists. repeat split; reflexivity. }
  split; [reflexivity |]. split; [exact Hne |]. split; [exact Hans |].
  destruct (keyed_returns_iff_well_formed None "secret" "World" "en" 20
              (newsapi_serving [wire_article]) initial [wire_article]
              eq_refl Hne Hans) as [_ Hshape].
  eexists. eexists. split; [reflexivity |].
  destruct (Hshape _ _ eq_refl) as (Hmap & Hstamps & _).
  split; [exact Hmap | exact Hstamps].
Defined.

(* ------------------------------------------------------------------ *)
(** ** Title and url, adapter by adapter *)

Lemma Forall2_compose {A B C : Type} (R1 : A -> B -> Prop)
    (R2 : B -> C -> Prop) (R : A -> C -> Prop) :
  (forall a b c, R1 a b -> R2 b c -> R a c) ->
  forall la lb lc, Forall2 R1 la lb -> Forall2 R2 lb lc -> Forall2 R la lc.
Proof.
  intros HR la lb lc H1. revert lc.
  induction H1 as [| a b la lb Hab _ IH]; intros lc H2.
  - inversion H2. constructor.
  - inversion H2 as [| b' c lb' lc' Hbc Hrest]; subst.
    constructor; [eapply HR; eassumption | apply IH; exact Hrest].
Qed.

Lemma carried_over_trans (a b c : pyval) :
  carried_over "link" a b -> carried_over "url" b c -> carried_over "link" a c.
Proof.
  intros (t & u & Hat & Hau & Hbt & Hbu) (t' & u' & Hbt' & Hbu' & Hct & Hcu).
  exists t, u. repeat split; congruence.
Qed.

Lemma _fallback_to_rss_parsed (q l c : string) (m : Z) (w : world)
    (s : state) (entries : list entry) :
  feedparser_parse w (rss_url q l c) = Ok entries ->
  _fallback_to_rss q l c m w s
  = mapM rss_record (slice_upto m entries) w
      (emit (EvFeedParse (rss_url q l c)) s).
Proof.
  intros H. unfold _fallback_to_rss, bind, feed_entries. rewrite H.
  reflexivity.
Qed.

(** A feed entry without a link. *)
Definition linkless_entry : entry := [ ("title", PStr "Storm warning") ].

(** The library is down and the feed holds an entry without a link. *)
Definition linkless_feed : world :=
  with_feed (fun _ => Ok [linkless_entry]) library_down.

(** C5 (amended). In every record an adapter produces, the title and url
    keys are present and hold, unchanged, what the upstream record holds under
    title and url (link, for a feed entry): a null or a non-string passes
    through as it is.  An upstream record that lacks title or url makes the
    adapter raise, so the call fails instead of yielding a record with a null
    put in.  This holds of the keyed adapter on the articles of the response,
    of the feed-fallback adapter on the entries under the cap, and of the
    keyless adapter on the library's records and, on the fallback path, on
    the feed's entries. *)
Theorem title_and_url_are_carried_over :
  (forall api_key key q l ps w s items,
      resolved_key api_key w = Some key ->
      key <> "" ->
      answered_with w key q l ps items ->
      (forall recs s',
          fetch_news_newsapi api_key q l ps w s = (Ok recs, s') ->
          Forall2 (carried_over "url") items recs)
      /\ (Exists (lacks "url") items ->
          exists e s', fetch_news_newsapi api_key q l ps w s = (Raise e, s')))
  /\ (forall q l c m w s entries,
         feedparser_parse w (rss_url q l c) = Ok entries ->
         (forall recs s',
             _fallback_to_rss q l c m w s = (Ok recs, s') ->
             Forall2 (fun e r => carried_over "link" (PDict e) r)
               (slice_upto m entries) recs)
         /\ (Exists (fun e => lacks "link" (PDict e)) (slice_upto m entries) ->
             exists e s', _fallback_to_rss q l c m w s = (Raise e, s')))
  /\ (forall q l c p m sl w s items,
         client_built w l c p m ->
         gnews_get_news w (mkGNews l c p m) q = Ok (PList items) ->
         items <> [] ->
         (forall recs s',
             fetch_news_gnews q l c p m false sl w s = (Ok recs, s') ->
             Forall2 (carried_over "url") items recs)
         /\ (Exists (lacks "url") items ->
             exists e s',
               fetch_news_gnews q l c p m false sl w s = (Raise e, s')))
  /\ (forall q l c p m ff sl w s entries,
         client_built w l c p m ->
         fallback_taken w q l c p m ff ->
         feedparser_parse w (rss_url q l c) = Ok entries ->
         (forall recs s',
             fetch_news_gnews q l c p m ff sl w s = (Ok recs, s') ->
             Forall2 (fun e r => carried_over "link" (PDict e) r)
               (slice_upto m entries) recs)
         /\ (Exists (fun e => lacks "link" (PDict e)) (slice_upto m entries) ->
             exists e s',
               fetch_news_gnews q l c p m ff sl w s = (Raise e, s'))).
Proof.
  split; [| split; [| split]].
  - intros api_key key q l ps w s items Hres Hkey Hans.
    rewrite (fetch_news_newsapi_resolved api_key key q l ps w s Hres Hkey).
    rewrite (newsapi_request_answered w key q l ps items _ Hans).
    split.
    + apply (loop_carries newsapi_record (fun a => a) "url"
               newsapi_record_carries).
    + apply (loop_raises newsapi_record (fun a => a) "url"
               newsapi_record_carries).
  - intros q l c m w s entries Hparse.
    rewrite (_fallback_to_rss_parsed q l c m w s entries Hparse).
    split.
    + apply (loop_carries rss_record PDict "link" rss_record_carries).
    + apply (loop_raises rss_record PDict "link" rss_record_carries).
  - intros q l c p m sl w s items Hbuilt Hlib Hne.
    assert (Hraw : truthy (PList items) = true)
      by (destruct items; [contradiction | reflexivity]).
    rewrite (fetch_news_gnews_on_library w q l c p m sl s _ Hbuilt Hlib Hraw).
    change (normalise (PList items)) with (mapM normalise_record items).
    split.
    + intros recs s' H. apply bind_Ok in H. destruct H as (rs & s1 & H & H').
      apply bind_Ok in H'. destruct H' as ([] & s2 & _ & H').
      apply ret_Ok in H'. destruct H' as [-> _].
      revert H. apply (loop_carries normalise_record (fun a => a) "url"
                         normalise_record_carries).
    + intros Hlacks.
      destruct (loop_raises normalise_record (fun a => a) "url"
                  normalise_record_carries items w
                  (emit (EvGetNews (mkGNews l c p m) q) s) Hlacks)
        as (e & s' & H).
      exists e, s'. unfold bind. rewrite H. reflexivity.
  - intros q l c p m ff sl w s entries Hbuilt Hfb Hparse.
    rewrite (fetch_news_gnews_on_fallback w q l c p m ff sl s Hbuilt Hfb).
    unfold normalised_fallback.
    match goal with
    | |- context [bind (_fallback_to_rss q l c m) ?k w ?s0] =>
        change (bind (_fallback_to_rss q l c m) k w s0)
          with (match _fallback_to_rss q l c m w s0 with
                | (Ok a, s1) => k a w s1
                | (Raise e, s1) => (Raise e, s1)
                end)
    end.
    rewrite (_fallback_to_rss_parsed q l c m w _ entries Hparse).
    split.
    + intros recs s' H.
      destruct (mapM rss_record (slice_upto m entries) w _)
        as [[fed | e] s1] eqn:Hfed; [| discriminate].
      apply bind_Ok in H. destruct H as (rs & s2 & H & H').
      apply bind_Ok in H'. destruct H' as ([] & s3 & _ & H').
      apply ret_Ok in H'. destruct H' as [-> _].
      apply normalise_Ok in H. destruct H as (items & Hit & Hloop).
      cbn [py_iter] in Hit. apply ret_Ok in Hit. destruct Hit as [-> _].
      apply (Forall2_compose
               (fun e r => carried_over "link" (PDict e) r)
               (carried_over "url") _
               (fun e b r => carried_over_trans (PDict e) b r)
               _ fed).
      * revert Hfed. apply (loop_carries rss_record PDict "link"
                              rss_record_carries).
      * revert Hloop. apply (loop_carries normalise_record (fun a => a) "url"
                               normalise_record_carries).
    + intros Hlacks.
      destruct (loop_raises rss_record PDict "link" rss_record_carries
                  (slice_upto m entries) w
                  (emit (EvFeedParse (rss_url q l c))
                     (fallback_start w q l c p m ff s)) Hlacks)
        as (e & s' & H).
      exists e, s'. rewrite H. reflexivity.
Qed.

Lemma title_and_url_are_carried_over_witness :
  (resolved_key None (newsapi_serving [untitled_article]) = Some "secret"
   /\ "secret" <> ""
   /\ answered_with (newsapi_serving [untitled_article]) "secret" "World" "en"
        20 [untitled_article]
   /\ exists recs s',
        fetch_news_newsapi None "World" "en" 20
          (newsapi_serving [untitled_article]) initial = (Ok recs, s')
        /\ Forall2 (carried_over "url") [untitled_article] recs)
  /\ (feedparser_parse linkless_feed (rss_url "World" "en" "US")
      = Ok [linkless_entry]
      /\ Exists (fun e => lacks "link" (PDict e))
           (slice_upto 10 [linkless_entry])
      /\ exists e s',
           _fallback_to_rss "World" "en" "US" 10 linkless_feed initial
           = (Raise e, s'))
  /\ (client_built library_up "en" "US" "7d" 10
      /\ gnews_get_news library_up (mkGNews "en" "US" "7d" 10) "World"
         = Ok library_records
      /\ exists recs s',
           fetch_news_gnews "World" "en" "US" "7d" 10 false (FFinite 0)
             library_up initial = (Ok recs, s')
           /\ List.length recs = 2)
  /\ (client_built linkless_feed "en" "US" "7d" 10
      /\ fallback_taken linkless_feed "World" "en" "US" "7d" 10 true
      /\ exists e s',
           fetch_news_gnews "World" "en" "US" "7d" 10 true (FFinite 0)
             linkless_feed initial = (Raise e, s')).
Proof.
  destruct title_and_url_are_carried_over
    as (Hkeyed & Hfeed & Hlibrary & Hfallback).
  assert (Hne : "secret" <> "") by discriminate.
  assert (Hans : answered_with (newsapi_serving [untitled_article]) "secret"
                   "World" "en" 20 [untitled_article]).
  { eexists. eexists. repeat split; reflexivity. }
  assert (Hl : Exists (fun e => lacks "link" (PDict e))
                 (slice_upto 10 [linkless_entry]))
    by (constructor; right; reflexivity).
  assert (Hfb : fallback_taken linkless_feed "World" "en" "US" "7d" 10 true)
    by (left; reflexivity).
  split; [| split; [| split]].
  - split; [reflexivity |]. split; [exact Hne |]. split; [exact Hans |].
    eexists. eexists. split; [reflexivity |].
    apply (proj1 (Hkeyed None "secret" "World" "en" 20%Z
                    (newsapi_serving [untitled_article]) initial
                    [untitled_article] eq_refl Hne Hans) _ _ eq_refl).
  - split; [reflexivity |]. split; [exact Hl |].
    apply (proj2 (Hfeed "World" "en" "US" 10%Z linkless_feed initial
                    [linkless_entry] eq_refl) Hl).
  - split; [reflexivity |]. split; [reflexivity |].
    eexists. eexists. split; [reflexivity |].
    pose proof (proj1 (Hlibrary "World" "en" "US" "7d" 10%Z (FFinite 0)
                         library_up initial _ eq_refl eq_refl
                         ltac:(discriminate)) _ _ eq_refl) as H.
    apply Forall2_length in H. symmetry. exact H.
  - split; [reflexivity |]. split; [exact Hfb |].
    apply (proj2 (Hfallback "World" "en" "US" "7d" 10%Z true (FFinite 0)
                    linkless_feed initial [linkless_entry] eq_refl Hfb
                    eq_refl) Hl).
Defined.

(* ------------------------------------------------------------------ *)
(** ** The feed URL *)

Fixpoint count_char (c : ascii) (s : string) : nat :=
  match s with
  | EmptyString => 0
  | String x s' => (if (x =? c)%char then 1 else 0) + count_char c s'
  end.

Fixpoint all_safe (s : string) : bool :=
  match s with
  | EmptyString => true
  | String x s' => Urllib.always_safe x && all_safe s'
  end.

Lemma count_char_app (c : ascii) (s t : string) :
  count_char c (s ++ t) = count_char c s + count_char c t.
Proof.
  induction s as [| x s IH]; [reflexivity |].
  cbn [append count_char]. rewrite IH. lia.
Qed.

Lemma hex_digit_safe (n : nat) : Urllib.always_safe (Urllib.hex_digit n) = true.
Proof.
  do 16 (destruct n as [| n]; [reflexivity |]). destruct n; reflexivity.
Qed.

Lemma safe_is_not (c x : ascii) :
  Urllib.always_safe c = false -> Urllib.always_safe x = true ->
  (x =? c)%char = false.
Proof.
  intros Hc Hx. destruct (x =? c)%char eqn:E; [| reflexivity].
  apply Ascii.eqb_eq in E. congruence.
Qed.

(** A character that is neither safe nor one of [+] and [%] never shows in
    an encoded string. *)
Lemma quote_plus_escapes (c : ascii) (s : string) :
  Urllib.always_safe c = false ->
  c <> "+"%char -> c <> "%"%char ->
  count_char c (Urllib.quote_plus s) = 0.
Proof.
  intros Hc Hplus Hpct.
  assert (Hp : ("+" =? c)%char = false)
    by (apply Ascii.eqb_neq; congruence).
  assert (Hq : ("%" =? c)%char = false)
    by (apply Ascii.eqb_neq; congruence).
  induction s as [| x s IH]; [reflexivity |].
  cbn [Urllib.quote_plus].
  destruct (Urllib.always_safe x) eqn:Hx.
  - cbn [count_char]. rewrite (safe_is_not c x Hc Hx), IH. reflexivity.
  - destruct (x =? " ")%char.
    + cbn [count_char]. rewrite Hp, IH. reflexivity.
    + cbn [count_char].
      rewrite Hq, !(safe_is_not c _ Hc (hex_digit_safe _)), IH. reflexivity.
Qed.

Lemma quote_plus_app (s t : string) :
  Urllib.quote_plus (s ++ t) = Urllib.quote_plus s ++ Urllib.quote_plus t.
Proof.
  induction s as [| x s IH]; [reflexivity |].
  cbn [append Urllib.quote_plus]. rewrite IH.
  destruct (Urllib.always_safe x); [reflexivity |].
  destruct (x =? " ")%char; reflexivity.
Qed.

Lemma quote_plus_safe (s : string) :
  all_safe s = true -> Urllib.quote_plus s = s.
Proof.
  induction s as [| x s IH]; [reflexivity |].
  cbn [all_safe Urllib.quote_plus]. intros H.
  apply andb_true_iff in H. destruct H as [Hx Hs].
  rewrite Hx, (IH Hs). reflexivity.
Qed.

Lemma string_app_assoc (s t u : string) : (s ++ t) ++ u = s ++ (t ++ u).
Proof.
  induction s as [| x s IH]; [reflexivity |].
  cbn [append]. rewrite IH. reflexivity.
Qed.

Lemma rss_url_parts (q l c : string) :
  rss_url q l c
  = "https://news.google.com/rss/search?q=" ++ Urllib.quote_plus q
    ++ "&hl=" ++ Urllib.quote_plus l ++ "-" ++ Urllib.quote_plus c
    ++ "&gl=" ++ Urllib.quote_plus c
    ++ "&ceid=" ++ Urllib.quote_plus c ++ "%3A" ++ Urllib.quote_plus l.
Proof.
  unfold rss_url, Urllib.urlencode.
  cbn [map fst snd String.concat].
  rewrite !quote_plus_app.
  change (Urllib.quote_plus "q") with "q".
  change (Urllib.quote_plus "hl") with "hl".
  change (Urllib.quote_plus "gl") with "gl".
  change (Urllib.quote_plus "ceid") with "ceid".
  change (Urllib.quote_plus "-") with "-".
  change (Urllib.quote_plus ":") with "%3A".
  rewrite !string_app_assoc. reflexivity.
Qed.

(** X13. Whatever the query, language and country hold, the feed URL has
    its one [?], its four [=], its three [&], no [#] and no space: the
    values are escaped, so none of them can add, cut or end a parameter. *)
Theorem rss_url_has_four_parameters (q l c : string) :
  count_char "?" (rss_url q l c) = 1
  /\ count_char "=" (rss_url q l c) = 4
  /\ count_char "&" (rss_url q l c) = 3
  /\ count_char "#" (rss_url q l c) = 0
  /\ count_char " " (rss_url q l c) = 0.
Proof.
  rewrite rss_url_parts.
  assert (H : forall x : ascii,
             Urllib.always_safe x = false -> x <> "+"%char -> x <> "%"%char ->
             forall n,
               count_char x "https://news.google.com/rss/search?q="
               + (count_char x "&hl=" + (count_char x "-"
                  + (count_char x "&gl=" + (count_char x "&ceid="
                     + count_char x "%3A")))) = n ->
               count_char x
                 ("https://news.google.com/rss/search?q="
                  ++ Urllib.quote_plus q
                  ++ "&hl=" ++ Urllib.quote_plus l ++ "-"
                  ++ Urllib.quote_plus c
                  ++ "&gl=" ++ Urllib.quote_plus c
                  ++ "&ceid=" ++ Urllib.quote_plus c ++ "%3A"
                  ++ Urllib.quote_plus l) = n).
  { intros x Hx Hp Hq n Hn.
    rewrite !count_char_app, !(quote_plus_escapes x _ Hx Hp Hq). lia. }
  repeat split; apply H; reflexivity || discriminate.
Qed.

(** X14. Language and country codes made of letters, digits and [_.-~] go
    into the feed URL as they are, composed as [hl=<lang>-<country>],
    [gl=<country>] and [ceid=<country>:<lang>] with the colon escaped; only
    the query is escaped, and a query of such characters is not changed
    either. *)
Theorem rss_url_of_plain_locale (q l c : string) :
  all_safe l = true ->
  all_safe c = true ->
  rss_url q l c
  = "https://news.google.com/rss/search?q=" ++ Urllib.quote_plus q
    ++ "&hl=" ++ l ++ "-" ++ c ++ "&gl=" ++ c ++ "&ceid=" ++ c ++ "%3A" ++ l
  /\ (all_safe q = true -> Urllib.quote_plus q = q).
Proof.
  intros Hl Hc. rewrite rss_url_parts.
  rewrite (quote_plus_safe l Hl), (quote_plus_safe c Hc).
  split; [reflexivity | apply quote_plus_safe].
Qed.

Lemma rss_url_of_plain_locale_witness :
  all_safe "en" = true
  /\ all_safe "US" = true
  /\ rss_url "AI news & co" "en" "US"
     = "https://news.google.com/rss/search?q=AI+news+%26+co&hl=en-US&gl=US&ceid=US%3Aen".
Proof.
  split; [reflexivity |]. split; [reflexivity |].
  apply (proj1 (rss_url_of_plain_locale "AI news & co" "en" "US"
                  eq_refl eq_refl)).
Defined.

(* ================================================================== *)
(** * The command line of [news_fetcher.py] *)

From Stdlib Require Import DecimalString.

Module Cli.

(** The [argparse.Namespace] that [parse_args] returns. *)
Record Namespace : Type := mkNamespace {
  arg_engine : string;
  arg_query : string;
  arg_language : string;
  arg_country : string;
  arg_period : string;
  arg_max : Z;
  arg_output : option string;
  arg_pretty : bool;
  arg_newsapi_key : option string;
  arg_force : bool;
  arg_sleep : pyfloat
}.

(** The defaults of [_build_arg_parser]: what an empty command line gives. *)
Definition default_args : Namespace :=
  mkNamespace "gnews" "World" "en" "US" "7d" 20 None false None false
    (FFinite 0).

(** What the output step does to the outside, most recent first. *)
Inductive out_event : Type :=
| OutWriteText (path text : string)
| OutPrint (line : string)
| OutStdout (text : string).

(** The host's side of the output step: [json.dumps] with its keyword
    arguments, [str(pathlib.Path(outfile).expanduser())],
    [path.write_text(text, encoding="utf-8")], [print(line)] and
    [sys.stdout.write(text)].  The last two can fail too, for instance with
    [UnicodeEncodeError] on a standard output that cannot encode the text. *)
Record host : Type := mkHost {
  json_dumps : list pyval -> list (string * pyval) -> string;
  expanduser : string -> result string;
  write_text : string -> string -> result unit;
  py_print : string -> result unit;
  sys_stdout_write : string -> result unit
}.

Definition newline : string := String (ascii_of_nat 10) EmptyString.

(** [str(n)] for a length *)
Definition str_of_nat (n : nat) : string :=
  NilEmpty.string_of_uint (Nat.to_uint n).

Definition dump_kwargs (pretty : bool) : list (string * pyval) :=
  if pretty then [("indent", PInt 2); ("ensure_ascii", PBool false)] else [].

Definition saved_line (n : nat) (path : string) : string :=
  "Saved " ++ str_of_nat n ++ " article(s) → " ++ path.

Definition _output_json (data : list pyval) (pretty : bool)
    (outfile : option string) (h : host) (out : list out_event)
    : result unit * list out_event :=
  let text := json_dumps h data (dump_kwargs pretty) in
  match outfile with
  | Some f =>
      if negb (f =? "") then
        match expanduser h f with
        | Ok path =>
            match write_text h path text with
            | Ok _ =>
                let line := saved_line (List.length data) path in
                (py_print h line, OutPrint line :: OutWriteText path text :: out)
            | Raise e => (Raise e, OutWriteText path text :: out)
            end
        | Raise e => (Raise e, out)
        end
      else (sys_stdout_write h (text ++ newline),
            OutStdout (text ++ newline) :: out)
  | None => (sys_stdout_write h (text ++ newline),
             OutStdout (text ++ newline) :: out)
  end.

(** The adapter call [main] makes for the chosen engine (lines 216-232). *)
Definition dispatch (args : Namespace) : M (list pyval) :=
  if arg_engine args =? "gnews" then
    fetch_news_gnews (arg_query args) (arg_language args) (arg_country args)
      (arg_period args) (arg_max args) (arg_force args) (arg_sleep args)
  else
    fetch_news_newsapi (arg_newsapi_key args) (arg_query args)
      (arg_language args) (arg_max args).

(** [main], from the parsed arguments on. *)
Definition main (args : Namespace) (w : world) (h : host) (s : state)
    (out : list out_event) : result unit * (state * list out_event) :=
  match dispatch args w s with
  | (Ok articles, s') =>
      let (r, out') :=
        _output_json articles (arg_pretty args) (arg_output args) h out in
      (r, (s', out'))
  | (Raise e, s') => (Raise e, (s', out))
  end.

(** A host that writes where it is told. *)
Definition plain_host : host :=
  mkHost (fun data kwargs =>
            "<" ++ str_of_nat (List.length data) ++ " records, "
            ++ str_of_nat (List.length kwargs) ++ " options>")
         (fun f => Ok ("/home/user/" ++ f))
         (fun _ _ => Ok tt)
         (fun _ => Ok tt)
         (fun _ => Ok tt).

(** The same host with a standard output that cannot encode the arrow of
    the "Saved" line. *)
Definition ascii_stdout_host : host :=
  mkHost (json_dumps plain_host) (expanduser plain_host)
         (write_text plain_host)
         (fun _ => Raise (LibraryError "UnicodeEncodeError"
                            "'ascii' codec can't encode character"))
         (fun _ => Ok tt).

End Cli.

(** X15. Each engine ignores the other one's options.  With an engine
    other than gnews the country, period, force-fallback and sleep arguments
    have no effect (there is no forced fallback and no pause on the keyed
    path); with gnews the API-key argument has none.  Two command lines
    that agree on the rest behave alike. *)
Theorem engine_ignores_foreign_options (a b : Cli.Namespace) (w : world)
    (h : Cli.host) (s : state) (out : list Cli.out_event) :
  Cli.arg_engine a = Cli.arg_engine b ->
  Cli.arg_query a = Cli.arg_query b ->
  Cli.arg_language a = Cli.arg_language b ->
  Cli.arg_max a = Cli.arg_max b ->
  Cli.arg_output a = Cli.arg_output b ->
  Cli.arg_pretty a = Cli.arg_pretty b ->
  (Cli.arg_engine a = "gnews" ->
     Cli.arg_country a = Cli.arg_country b
     /\ Cli.arg_period a = Cli.arg_period b
     /\ Cli.arg_force a = Cli.arg_force b
     /\ Cli.arg_sleep a = Cli.arg_sleep b) ->
  (Cli.arg_engine a <> "gnews" ->
     Cli.arg_newsapi_key a = Cli.arg_newsapi_key b) ->
  Cli.main a w h s out = Cli.main b w h s out.
Proof.
  intros He Hq Hl Hm Ho Hp Hgnews Hkeyed.
  assert (Hd : Cli.dispatch a w s = Cli.dispatch b w s).
  { unfold Cli.dispatch. rewrite <- He, <- Hq, <- Hl, <- Hm.
    destruct (Cli.arg_engine a =? "gnews") eqn:E.
    - apply String.eqb_eq in E.
      destruct (Hgnews E) as (Hc & Hpd & Hf & Hs).
      rewrite Hc, Hpd, Hf, Hs. reflexivity.
    - apply String.eqb_neq in E. rewrite (Hkeyed E). reflexivity. }
  unfold Cli.main. rewrite Hd, Ho, Hp. reflexivity.
Qed.

Lemma engine_ignores_foreign_options_witness :
  Cli.main
    (Cli.mkNamespace "newsapi" "World" "en" "US" "7d" 20 None false
       (Some "k") false (FFinite 0))
    (newsapi_serving [wire_article]) Cli.plain_host initial []
  = Cli.main
      (Cli.mkNamespace "newsapi" "World" "en" "DE" "1d" 20 None false
         (Some "k") true (FFinite 5))
      (newsapi_serving [wire_article]) Cli.plain_host initial [].
Proof.
  apply engine_ignores_foreign_options; try reflexivity.
  cbn. intros H. discriminate H.
Defined.

(** X16. [main] writes only after a successful fetch, and to one place.
    When the adapter raises, [main] raises the same error and nothing is
    written or printed.  Without an output file (none given, or the empty
    string) the JSON text and a newline are written to standard output, no
    file is touched, and [main] ends as that write ends.  With one, nothing
    goes to standard output but the final "Saved N article(s)" line, which is
    printed only once the file is written and where N is the number of
    records fetched; [main] ends as that [print] ends, so a standard output
    that cannot take the line makes it raise after the file is written. *)
Theorem main_writes_after_success (args : Cli.Namespace) (w : world)
    (h : Cli.host) (s : state) (out : list Cli.out_event) :
  (forall e s',
      Cli.dispatch args w s = (Raise e, s') ->
      Cli.main args w h s out = (Raise e, (s', out)))
  /\ (forall articles s',
         Cli.dispatch args w s = (Ok articles, s') ->
         str_truthy (Cli.arg_output args) = false ->
         let text := (Cli.json_dumps h articles
                        (Cli.dump_kwargs (Cli.arg_pretty args))
                      ++ Cli.newline)%string in
         Cli.main args w h s out
         = (Cli.sys_stdout_write h text, (s', Cli.OutStdout text :: out)))
  /\ (forall articles s' f,
         Cli.dispatch args w s = (Ok articles, s') ->
         Cli.arg_output args = Some f -> f <> "" ->
         let text := Cli.json_dumps h articles
                       (Cli.dump_kwargs (Cli.arg_pretty args)) in
         (exists e, Cli.expanduser h f = Raise e
                    /\ Cli.main args w h s out = (Raise e, (s', out)))
         \/ (exists path e,
                Cli.expanduser h f = Ok path
                /\ Cli.write_text h path text = Raise e
                /\ Cli.main args w h s out
                   = (Raise e, (s', Cli.OutWriteText path text :: out)))
         \/ (exists path,
                Cli.expanduser h f = Ok path
                /\ Cli.write_text h path text = Ok tt
                /\ let line := Cli.saved_line (List.length articles) path in
                   Cli.main args w h s out
                   = (Cli.py_print h line,
                      (s', Cli.OutPrint line
                             :: Cli.OutWriteText path text :: out)))).
Proof.
  split; [| split].
  - intros e s' H. unfold Cli.main. rewrite H. reflexivity.
  - intros articles s' H Hout. cbv zeta.
    unfold Cli.main, Cli._output_json. rewrite H.
    destruct (Cli.arg_output args) as [f |]; [| reflexivity].
    cbn [str_truthy] in Hout. rewrite Hout. reflexivity.
  - intros articles s' f H Hout Hf. cbv zeta. apply String.eqb_neq in Hf.
    unfold Cli.main, Cli._output_json. rewrite H, Hout, Hf. cbn [negb].
    destruct (Cli.expanduser h f) as [path | e] eqn:He.
    + destruct (Cli.write_text h path _) as [[] | e] eqn:Hw.
      * right. right. exists path. rewrite Hw. repeat split; reflexivity.
      * right. left. exists path, e. rewrite Hw. repeat split; reflexivity.
    + left. exists e. repeat split; reflexivity.
Qed.

(** The default command line with [--output out.json --pretty]. *)
Definition to_file : Cli.Namespace :=
  Cli.mkNamespace "gnews" "World" "en" "US" "7d" 20 (Some "out.json") true
    None false (FFinite 0).

Lemma main_writes_after_success_witness :
  (Cli.dispatch Cli.default_args interrupted initial
   = (Raise KeyboardInterrupt,
      emit (EvGetNews (mkGNews "en" "US" "7d" 20) "World") initial)
   /\ Cli.main Cli.default_args interrupted Cli.plain_host initial []
      = (Raise KeyboardInterrupt,
         (emit (EvGetNews (mkGNews "en" "US" "7d" 20) "World") initial, [])))
  /\ (str_truthy (Cli.arg_output Cli.default_args) = false
      /\ exists articles s',
           Cli.dispatch Cli.default_args library_up initial
           = (Ok articles, s')
           /\ Cli.main Cli.default_args library_up Cli.plain_host initial []
              = (Ok tt,
                 (s', [Cli.OutStdout
                         (Cli.json_dumps Cli.plain_host articles []
                          ++ Cli.newline)])))
  /\ (Cli.arg_output to_file = Some "out.json"
      /\ "out.json" <> ""
      /\ exists articles s',
           Cli.dispatch to_file library_up initial = (Ok articles, s')
           /\ Cli.main to_file library_up Cli.ascii_stdout_host initial []
              = (Raise (LibraryError "UnicodeEncodeError"
                          "'ascii' codec can't encode character"),
                 (s', [ Cli.OutPrint
                          "Saved 2 article(s) → /home/user/out.json";
                        Cli.OutWriteText "/home/user/out.json"
                          "<2 records, 2 options>" ]))).
Proof.
  assert (Hne : "out.json" <> "") by discriminate.
  destruct (main_writes_after_success Cli.default_args interrupted
              Cli.plain_host initial []) as (Hfail & _ & _).
  destruct (main_writes_after_success Cli.default_args library_up
              Cli.plain_host initial []) as (_ & Hstdout & _).
  destruct (main_writes_after_success to_file library_up
              Cli.ascii_stdout_host initial []) as (_ & _ & Hfile).
  split; [| split].
  - split; [reflexivity |]. apply (Hfail _ _ eq_refl).
  - split; [reflexivity |]. eexists. eexists. split; [reflexivity |].
    apply (Hstdout _ _ eq_refl eq_refl).
  - split; [reflexivity |]. split; [exact Hne |].
    eexists. eexists. split; [reflexivity |].
    destruct (Hfile _ _ "out.json" eq_refl eq_refl Hne)
      as [(e & He & _) | [(path & e & _ & Hw & _) | (path & He & _ & Hmain)]].
    + discriminate He.
    + discriminate Hw.
    + inversion He; subst path. exact Hmain.
Defined.

(* ================================================================== *)
(** * The broadcaster [youtube_streamer.py] *)

Module Streamer.


(** How [subprocess.run] ends: the process exits with a code, or cannot be
    started. *)
Inductive run_result : Type :=
| Exited (returncode : Z)
| NotStarted (msg : string).

Record host : Type := mkHost {
  shutil_which : string -> option string;
  subprocess_run : list string -> run_result
}.

(** What [run_ffmpeg] does to the outside, most recent first. *)
Inductive event : Type :=
| Printed (line : string)
| Ran (cmd : list string).

Definition YOUTUBE_RTMP_URL : string := "rtmp://a.rtmp.youtube.com/live2".

(** the list [cmd] of lines 27-54 *)
Definition ffmpeg_cmd (input_source stream_key : string)
    (extra_args : list string) : list string :=
  ([ "ffmpeg"; "-re"; "-i"; input_source;
     "-c:v"; "libx264";
     "-preset"; "veryfast";
     "-maxrate"; "3000k";
     "-bufsize"; "6000k";
     "-pix_fmt"; "yuv420p";
     "-g"; "50";
     "-c:a"; "aac";
     "-b:a"; "160k";
     "-ar"; "44100" ]
   ++ extra_args
   ++ [ "-f"; "flv"; (YOUTUBE_RTMP_URL ++ "/" ++ stream_key)%string ])%list.



End Streamer.



Lemma concat_snoc (sep : string) (l : list string) (x : string) :
  l <> [] ->
  String.concat sep (l ++ [x]) = String.concat sep l ++ sep ++ x.
Proof.
  induction l as [| a l IH]; [contradiction |]. intros _.
  destruct l as [| b l]; [reflexivity |].
  change (String.concat sep ((a :: b :: l) ++ [x])%list)
    with (a ++ sep ++ String.concat sep ((b :: l) ++ [x])%list).
  rewrite IH by discriminate.
  change (String.concat sep (a :: b :: l))
    with (a ++ sep ++ String.concat sep (b :: l)).
  rewrite !string_app_assoc. reflexivity.
Qed.

(** X18. Whatever extra arguments are passed, the command keeps its frame:
    it starts with [ffmpeg -re -i <input>], the extra arguments follow the
    twenty-two fixed ones, and the last three are [-f flv <url>/<key>].  The
    stream key is the end of the last argument, and so of the line that is
    printed before the run. *)
Theorem ffmpeg_cmd_frame (input key : string) (extra : list string) :
  let cmd := Streamer.ffmpeg_cmd input key extra in
  List.length cmd = 25 + List.length extra
  /\ firstn 4 cmd = ["ffmpeg"; "-re"; "-i"; input]
  /\ firstn (List.length extra) (skipn 22 cmd) = extra
  /\ skipn (22 + List.length extra) cmd
     = ["-f"; "flv"; Streamer.YOUTUBE_RTMP_URL ++ "/" ++ key]
  /\ exists shown,
       "Running: " ++ String.concat " " cmd = shown ++ "/" ++ key.
Proof.
  cbv zeta. unfold Streamer.ffmpeg_cmd.
  split; [| split; [| split; [| split]]].
  - rewrite !length_app. cbn [List.length]. lia.
  - reflexivity.
  - cbn [skipn app]. rewrite firstn_app, Nat.sub_diag, firstn_all.
    cbn [firstn]. apply app_nil_r.
  - rewrite skipn_app. cbn [List.length].
    replace (22 + List.length extra - 22) with (List.length extra) by lia.
    rewrite skipn_all2 by (cbn [List.length]; lia). cbn [app].
    rewrite skipn_app, skipn_all, Nat.sub_diag. reflexivity.
  - match goal with
    | |- context [(?front ++ extra ++ [?f; ?flv; ?target])%list] =>
        replace (front ++ extra ++ [f; flv; target])%list
          with ((front ++ extra ++ [f; flv]) ++ [target])%list
          by (rewrite <- !app_assoc; reflexivity)
    end.
    rewrite concat_snoc by discriminate.
    eexists. rewrite <- !string_app_assoc. reflexivity.
Qed.
